(** * juniper_junos_file: checksum-verified file synchronisation

    A shallow embedding of [library/juniper_junos_file.py] and the proofs of
    its specification.  The module copies one file between the Ansible
    controller and a Junos device with SCP, and skips the copy when the MD5
    checksums of both sides already agree.

    Layout of the development:
    - strings and bytes as Python uses them ([in], [strip], [format]);
    - [hashlib.md5], modelled after RFC 1321 and validated on its test suite;
    - [_hashfile], [local_md5], [remote_md5] and [main], translated from the
      source, in a state-and-trace monad over an arbitrary environment
      (local file system, device RPC, SCP transport);
    - a reference environment used to run the module on concrete inputs;
    - the theorems. *)

From Stdlib Require Import String Ascii List ZArith Lia Bool Arith.
From Stdlib Require Import Strings.Byte.
From Equations Require Import Equations.
Import ListNotations.

Local Open Scope string_scope.
Local Open Scope list_scope.

(* ===================================================================== *)
(** * Python strings *)
(* ===================================================================== *)

(** [needle in hay] on Python strings: [needle] occurs as a contiguous
    substring of [hay]. *)
Fixpoint contains (needle hay : string) : bool :=
  String.prefix needle hay
  || match hay with
     | EmptyString => false
     | String _ hay' => contains needle hay'
     end.

(** The characters [str.strip()] removes when called without argument from
    a byte string, as the strings here are: the ASCII white space. *)
Definition is_space (c : ascii) : bool :=
  let n := nat_of_ascii c in
  (n =? 32)%nat || ((9 <=? n)%nat && (n <=? 13)%nat).

Fixpoint lstrip (s : string) : string :=
  match s with
  | EmptyString => EmptyString
  | String c s' => if is_space c then lstrip s' else s
  end.

Fixpoint rstrip (s : string) : string :=
  match s with
  | EmptyString => EmptyString
  | String c s' =>
      match rstrip s' with
      | EmptyString => if is_space c then EmptyString else String c EmptyString
      | r => String c r
      end
  end.

Definition strip (s : string) : string := rstrip (lstrip s).

(** Decimal rendering of an errno, as ["{0}".format(n)] prints it. *)
Definition digit_char (n : nat) : ascii := ascii_of_nat (48 + n).

Fixpoint decimal_aux (fuel n : nat) (acc : string) : string :=
  match fuel with
  | O => acc
  | S fuel' =>
      let acc' := String (digit_char (n mod 10)) acc in
      if (n <? 10)%nat then acc' else decimal_aux fuel' (n / 10) acc'
  end.

Definition decimal (n : nat) : string := decimal_aux (S n) n EmptyString.

(* ===================================================================== *)
(** * hashlib.md5 *)
(* ===================================================================== *)

(** The source imports [hashlib] and hands [hashlib.md5()] to [_hashfile].
    [_hashfile] only uses the two methods below, so it is written against
    this interface; [hashlib.md5] is the instance [md5_Hasher]. *)
Class Hasher (H : Type) : Type := {
  update : H -> list byte -> H;
  hexdigest : H -> string
}.

(** The contract of [hashlib]'s hash objects: feeding [a] and then [b] is
    the same as feeding [a + b]. *)
Class HasherLaws (H : Type) `{Hasher H} : Prop := {
  update_nil : forall h : H, update h [] = h;
  update_app : forall (h : H) (a b : list byte),
      update (update h a) b = update h (a ++ b)
}.

Module MD5.

Local Open Scope Z_scope.

(** 32-bit words are integers in [0, 2^32); additions wrap around. *)
Definition wrap32 (x : Z) : Z := x mod 2 ^ 32.
Definition add32 (x y : Z) : Z := wrap32 (x + y).
Definition not32 (x : Z) : Z := Z.lxor x 0xffffffff.
Definition rotl32 (x : Z) (n : Z) : Z :=
  Z.lor (wrap32 (Z.shiftl x n)) (Z.shiftr x (32 - n)).

Definition byte_val (b : byte) : Z := Z.of_N (Byte.to_N b).

Definition byte_of_Z (z : Z) : byte :=
  match Byte.of_N (Z.to_N (z mod 256)) with
  | Some b => b
  | None => x00
  end.

(** Per-round shift amounts and the sine table of RFC 1321. *)
Definition shifts : list Z :=
  [ 7; 12; 17; 22; 7; 12; 17; 22; 7; 12; 17; 22; 7; 12; 17; 22;
    5;  9; 14; 20; 5;  9; 14; 20; 5;  9; 14; 20; 5;  9; 14; 20;
    4; 11; 16; 23; 4; 11; 16; 23; 4; 11; 16; 23; 4; 11; 16; 23;
    6; 10; 15; 21; 6; 10; 15; 21; 6; 10; 15; 21; 6; 10; 15; 21 ].

Definition sines : list Z :=
  [ 0xd76aa478; 0xe8c7b756; 0x242070db; 0xc1bdceee;
    0xf57c0faf; 0x4787c62a; 0xa8304613; 0xfd469501;
    0x698098d8; 0x8b44f7af; 0xffff5bb1; 0x895cd7be;
    0x6b901122; 0xfd987193; 0xa679438e; 0x49b40821;
    0xf61e2562; 0xc040b340; 0x265e5a51; 0xe9b6c7aa;
    0xd62f105d; 0x02441453; 0xd8a1e681; 0xe7d3fbc8;
    0x21e1cde6; 0xc33707d6; 0xf4d50d87; 0x455a14ed;
    0xa9e3e905; 0xfcefa3f8; 0x676f02d9; 0x8d2a4c8a;
    0xfffa3942; 0x8771f681; 0x6d9d6122; 0xfde5380c;
    0xa4beea44; 0x4bdecfa9; 0xf6bb4b60; 0xbebfbc70;
    0x289b7ec6; 0xeaa127fa; 0xd4ef3085; 0x04881d05;
    0xd9d4d039; 0xe6db99e5; 0x1fa27cf8; 0xc4ac5665;
    0xf4292244; 0x432aff97; 0xab9423a7; 0xfc93a039;
    0x655b59c3; 0x8f0ccc92; 0xffeff47d; 0x85845dd1;
    0x6fa87e4f; 0xfe2ce6e0; 0xa3014314; 0x4e0811a1;
    0xf7537e82; 0xbd3af235; 0x2ad7d2bb; 0xeb86d391 ].

(** The four chaining words A, B, C, D. *)
Record words : Type := Words { wA : Z; wB : Z; wC : Z; wD : Z }.

Definition initial_words : words :=
  Words 0x67452301 0xefcdab89 0x98badcfe 0x10325476.

(** The little-endian 32-bit words of a 64-byte block. *)
Fixpoint block_words (block : list byte) : list Z :=
  match block with
  | b0 :: b1 :: b2 :: b3 :: rest =>
      (byte_val b0 + byte_val b1 * 2 ^ 8 + byte_val b2 * 2 ^ 16
       + byte_val b3 * 2 ^ 24) :: block_words rest
  | _ => []
  end.

(** One of the 64 operations of the compression function. *)
Definition step (m : list Z) (w : words) (i : nat) : words :=
  let '(Words a b c d) := w in
  let zi := Z.of_nat i in
  let '(f, g) :=
    if (i <? 16)%nat then
      (Z.lor (Z.land b c) (Z.land (not32 b) d), zi)
    else if (i <? 32)%nat then
      (Z.lor (Z.land d b) (Z.land (not32 d) c), (5 * zi + 1) mod 16)
    else if (i <? 48)%nat then
      (Z.lxor (Z.lxor b c) d, (3 * zi + 5) mod 16)
    else
      (Z.lxor c (Z.lor b (not32 d)), (7 * zi) mod 16) in
  let f' := add32 (add32 (add32 f a) (nth i sines 0)) (nth (Z.to_nat g) m 0) in
  Words d (add32 b (rotl32 f' (nth i shifts 0))) b c.

Definition compress (w : words) (block : list byte) : words :=
  let m := block_words block in
  let '(Words a b c d) := fold_left (step m) (seq 0 64) w in
  Words (add32 (wA w) a) (add32 (wB w) b) (add32 (wC w) c) (add32 (wD w) d).

(** The hash object: chaining words, the bytes of the unfinished block and
    the number of bytes fed so far. *)
Record state : Type := State {
  chain : words;
  pending : list byte;
  fed : Z
}.

(** [hashlib.md5()] *)
Definition new : state := State initial_words [] 0.

Definition feed (s : state) (b : byte) : state :=
  let buf := pending s ++ [b] in
  if (length buf =? 64)%nat
  then State (compress (chain s) buf) [] (fed s + 1)
  else State (chain s) buf (fed s + 1).

(** [h.update(data)] *)
Definition md5_update (s : state) (data : list byte) : state :=
  fold_left feed data s.

Definition le_bytes (n : nat) (z : Z) : list byte :=
  map (fun k => byte_of_Z (Z.shiftr z (8 * Z.of_nat k))) (seq 0 n).

(** Padding: a one bit, zeros up to 56 modulo 64, the bit length on 64 bits. *)
Definition padding (s : state) : list byte :=
  let used := Z.of_nat (length (pending s)) in
  let zeros := Z.to_nat ((55 - used) mod 64) in
  x80 :: repeat x00 zeros ++ le_bytes 8 ((8 * fed s) mod 2 ^ 64).

Definition finish (s : state) : words :=
  let tail := pending s ++ padding s in
  if (length tail <=? 64)%nat
  then compress (chain s) tail
  else compress (compress (chain s) (firstn 64 tail)) (skipn 64 tail).

Definition hex_digit (z : Z) : ascii :=
  match String.get (Z.to_nat z) "0123456789abcdef" with
  | Some c => c
  | None => "0"%char
  end.

Definition hex_byte (b : byte) (rest : string) : string :=
  String (hex_digit (byte_val b / 16))
    (String (hex_digit (byte_val b mod 16)) rest).

Definition hex_word (z : Z) (rest : string) : string :=
  hex_byte (byte_of_Z z)
    (hex_byte (byte_of_Z (Z.shiftr z 8))
       (hex_byte (byte_of_Z (Z.shiftr z 16))
          (hex_byte (byte_of_Z (Z.shiftr z 24)) rest))).

(** [h.hexdigest()]: 32 lowercase hexadecimal digits. *)
Definition md5_hexdigest (s : state) : string :=
  let '(Words a b c d) := finish s in
  hex_word a (hex_word b (hex_word c (hex_word d EmptyString))).

(** [hashlib.md5(data).hexdigest()] *)
Definition md5 (data : list byte) : string :=
  md5_hexdigest (md5_update new data).

End MD5.

#[export] Instance md5_Hasher : Hasher MD5.state := {
  update := MD5.md5_update;
  hexdigest := MD5.md5_hexdigest
}.

(** A hasher that only records the buffers it is given, oldest first: the
    sequence of [update] calls a client performs. *)
Record recorder : Type := Recorder { recorded : list (list byte) }.

#[export] Instance recorder_Hasher : Hasher recorder := {
  update := fun r buf => Recorder (recorded r ++ [buf]);
  hexdigest := fun _ => EmptyString
}.

(* ===================================================================== *)
(** * _hashfile *)
(* ===================================================================== *)

(** A file opened with [open(package, 'rb')]: the bytes from the current
    position to the end of the file.  [afile.read(size)] returns at most
    [size] bytes (all of them when [size] is negative) and advances the
    position.  The sizes covered are those [read] accepts: [-1], and the
    sizes from [0] on for which a buffer can be allocated; for a size past
    [sys.maxsize] the real [read] raises [OverflowError]. *)
Definition read (afile : list byte) (size : Z) : list byte * list byte :=
  if (size <? 0)%Z then (afile, [])
  else (firstn (Z.to_nat size) afile, skipn (Z.to_nat size) afile).

Definition default_blocksize : Z := 65536.

Section Hashfile.

Context {H : Type} `{Hasher H}.

(** The [while len(buf) > 0] loop of [_hashfile], entered with the buffer
    just read and the file positioned after it. *)
Equations? hash_while (buf afile : list byte) (hasher : H) (blocksize : Z)
  : H by wf (length buf + length afile)%nat lt :=
  hash_while [] afile hasher blocksize := hasher;
  hash_while (b :: buf) afile hasher blocksize :=
    hash_while (fst (read afile blocksize)) (snd (read afile blocksize))
      (update hasher (b :: buf)) blocksize.
Proof.
  unfold read. destruct (blocksize <? 0)%Z; simpl.
  - lia.
  - rewrite length_firstn, length_skipn. lia.
Qed.

(** [def _hashfile(afile, hasher, blocksize=65536)] *)
Definition _hashfile (afile : list byte) (hasher : H) (blocksize : Z) : string :=
  let '(buf, afile') := read afile blocksize in
  hexdigest (hash_while buf afile' hasher blocksize).

End Hashfile.

(* ===================================================================== *)
(** * Exceptions, results and events *)
(* ===================================================================== *)

Local Open Scope string_scope.

(** A Python exception as the module observes it: its class, the errno of
    an operating-system error, its text [format(err)], and its [message]
    attribute when it has a usable one. *)
Record exn : Type := Exn {
  exc_class : string;
  exc_errno : option nat;
  exc_str : string;
  exc_message : option string
}.

(** [format(err)] *)
Definition format (err : exn) : string := exc_str err.

Definition ENOENT : nat := 2.
Definition EACCES : nat := 13.

(** [IOError(errno, strerror, filename)], what [open] raises; its text is
    ["[Errno N] strerror: 'filename'"]. *)
Definition IOError (errno : nat) (strerror filename : string) : exn :=
  Exn "IOError" (Some errno)
    ("[Errno " ++ decimal errno ++ "] " ++ strerror ++ ": '" ++ filename ++ "'")
    (Some "").

(** [jnpr.junos.exception.RpcError] with the device's error message. *)
Definition RpcError (message : string) : exn :=
  Exn "RpcError" None
    ("RpcError(severity: error, bad_element: None, message: " ++ message ++ ")")
    (Some message).

(** [None.strip()], when the RPC reply holds no [checksum] element. *)
Definition NoneType_strip : exn :=
  Exn "AttributeError" None "'NoneType' object has no attribute 'strip'"
    (Some "'NoneType' object has no attribute 'strip'").

(** Reading [err.message] on an exception that has none. *)
Definition no_message (err : exn) : exn :=
  Exn "AttributeError" None
    ("'" ++ exc_class err ++ "' object has no attribute 'message'") None.

(** Reading [status] when neither branch of [main] assigned it. *)
Definition UnboundLocalError_status : exn :=
  Exn "UnboundLocalError" None
    "local variable 'status' referenced before assignment"
    (Some "local variable 'status' referenced before assignment").

(** The [results] dictionary of [main]. *)
Record Results : Type := mkResults {
  msg : string;
  changed : bool;
  failed : bool
}.

(** How a computation ends: with a value, with an exception, or by leaving
    the process through [exit_json] (called with the entries of [results]) or [fail_json(msg=...)]. *)
Inductive result (A : Type) : Type :=
| Return (a : A)
| Raise (err : exn)
| ExitJson (results : Results)
| FailJson (message : string).
Arguments Return {A} a.
Arguments Raise {A} err.
Arguments ExitJson {A} results.
Arguments FailJson {A} message.

Inductive level : Type := INFO | ERROR.

(** What a run does to the outside, with the answer it got. *)
Inductive event : Type :=
| Log (lvl : level) (message : string)
| Open (path : string) (r : exn + list byte)
| Rpc (path : string) (r : exn + option string)
| ScpEnter (r : option exn)
| ScpPut (local_file remote_path : string) (r : option exn)
| ScpGet (remote_file local_file : string) (r : option exn)
| ScpExit (r : option exn).

(** The module's parameters ([junos_module.params]); the argument spec
    restricts [type] to ["put"] and ["get"]. *)
Record Params : Type := mkParams {
  local_dir : string;
  remote_dir : string;
  file : string;
  type : string
}.

(** The collaborators, over a world [W] they may change: the controller's
    file system, the device's checksum RPC and the SCP session.
    - [open_rb path]: [open(path, 'rb')], the bytes the handle delivers;
    - [get_checksum_information path]: the RPC of that name followed by
      [findtext('.//checksum')] ([None] when the reply has no such element);
    - [scp_enter], [scp_exit]: entering and leaving [with SCP(dev)];
    - [scp_put], [scp_get]: the two copy operations of the session. *)
Record Env (W : Type) : Type := mkEnv {
  open_rb : string -> W -> (exn + list byte) * W;
  get_checksum_information : string -> W -> (exn + option string) * W;
  scp_enter : W -> option exn * W;
  scp_put : string -> string -> W -> option exn * W;
  scp_get : string -> string -> W -> option exn * W;
  scp_exit : W -> option exn * W
}.
Arguments open_rb {W} _ _ _.
Arguments get_checksum_information {W} _ _ _.
Arguments scp_enter {W} _ _.
Arguments scp_put {W} _ _ _ _.
Arguments scp_get {W} _ _ _ _.
Arguments scp_exit {W} _ _.

(* ===================================================================== *)
(** * The state-and-trace monad *)
(* ===================================================================== *)

(** A computation maps the world to its result, the new world and the
    events it produced, oldest first. *)
Definition M (W A : Type) : Type := W -> result A * W * list event.

Definition ret {W A} (a : A) : M W A := fun w => (Return a, w, []).

Definition raise {W A} (err : exn) : M W A := fun w => (Raise err, w, []).

Definition bind {W A B} (m : M W A) (k : A -> M W B) : M W B :=
  fun w =>
    match m w with
    | (Return a, w1, t1) =>
        let '(r, w2, t2) := k a w1 in (r, w2, (t1 ++ t2)%list)
    | (Raise err, w1, t1) => (Raise err, w1, t1)
    | (ExitJson results, w1, t1) => (ExitJson results, w1, t1)
    | (FailJson message, w1, t1) => (FailJson message, w1, t1)
    end.

Notation "x <- m ;; k" := (bind m (fun x => k))
  (at level 61, m at next level, right associativity).
Notation "m ;; k" := (bind m (fun _ => k))
  (at level 61, right associativity).

(** The [try] part of [try: ... except Exception as err: ...]: an exception
    becomes a value; leaving the process is no exception. *)
Definition attempt {W A} (m : M W A) : M W (exn + A) :=
  fun w =>
    match m w with
    | (Return a, w1, t1) => (Return (inr a), w1, t1)
    | (Raise err, w1, t1) => (Return (inl err), w1, t1)
    | (ExitJson results, w1, t1) => (ExitJson results, w1, t1)
    | (FailJson message, w1, t1) => (FailJson message, w1, t1)
    end.

Definition emit {W} (e : event) : M W unit := fun w => (Return tt, w, [e]).

(** [junos_module.logger.info], [junos_module.logger.error] *)
Definition logger_info {W} (message : string) : M W unit := emit (Log INFO message).
Definition logger_error {W} (message : string) : M W unit := emit (Log ERROR message).

(** [junos_module.exit_json] (called with the entries of [results]), [junos_module.fail_json(msg=...)] *)
Definition exit_json {W A} (results : Results) : M W A :=
  fun w => (ExitJson results, w, []).
Definition fail_json {W A} (message : string) : M W A :=
  fun w => (FailJson message, w, []).

Definition outcome {W A} (run : result A * W * list event) : result A := fst (fst run).
Definition world_of {W A} (run : result A * W * list event) : W := snd (fst run).
Definition trace_of {W A} (run : result A * W * list event) : list event := snd run.

(* ===================================================================== *)
(** * The module *)
(* ===================================================================== *)

Section JuniperJunosFile.

Context {W : Type} (env : Env W).

(** [open(package, 'rb')] *)
Definition open_ (package : string) : M W (list byte) :=
  fun w =>
    let '(r, w1) := open_rb env package w in
    (match r with inl err => Raise err | inr afile => Return afile end,
     w1, [Open package r]).

(** [junos_module.dev.rpc.get_checksum_information(path=remote_file)]
    followed by [.findtext('.//checksum')] *)
Definition rpc_checksum (remote_file : string) : M W (option string) :=
  fun w =>
    let '(r, w1) := get_checksum_information env remote_file w in
    (match r with inl err => Raise err | inr reply => Return reply end,
     w1, [Rpc remote_file r]).

(** [with SCP(junos_module.dev) as scp1: body].  [__exit__] closes the
    session whenever [__enter__] returned, also when [body] raised; it
    returns [None], so the exception of [body] goes on. *)
Definition with_SCP {A} (body : M W A) : M W A :=
  fun w =>
    let '(r0, w1) := scp_enter env w in
    match r0 with
    | Some err => (Raise err, w1, [ScpEnter r0])
    | None =>
        let '(r, w2, t) := body w1 in
        let '(r1, w3) := scp_exit env w2 in
        (match r1 with Some err => Raise err | None => r end,
         w3, ScpEnter None :: (t ++ [ScpExit r1])%list)
    end.

(** [scp1.put(local_file, remote_path)] *)
Definition scp1_put (local_file remote_path : string) : M W unit :=
  fun w =>
    let '(r, w1) := scp_put env local_file remote_path w in
    (match r with Some err => Raise err | None => Return tt end,
     w1, [ScpPut local_file remote_path r]).

(** [scp1.get(remote_file, local_file)] *)
Definition scp1_get (remote_file local_file : string) : M W unit :=
  fun w =>
    let '(r, w1) := scp_get env remote_file local_file w in
    (match r with Some err => Raise err | None => Return tt end,
     w1, [ScpGet remote_file local_file r]).

(** [def local_md5(junos_module, package)] *)
Definition local_md5 (params : Params) (package : string) : M W string :=
  r <- attempt (afile <- open_ package ;;
                ret (_hashfile afile MD5.new default_blocksize)) ;;
  match r with
  | inl err =>
      logger_error ("unable to get the hash due to:" ++ format err) ;;
      if contains "No such file" (format err) && (type params =? "get")
      then ret "no_file"
      else raise err
  | inr checksum =>
      logger_info "local hash calculated" ;;
      ret checksum
  end.

(** [def remote_md5(junos_module, remote_file)] *)
Definition remote_md5 (params : Params) (remote_file : string) : M W string :=
  r <- attempt (rpc_reply <- rpc_checksum remote_file ;;
                match rpc_reply with
                | Some text => ret (strip text)
                | None => raise NoneType_strip
                end) ;;
  match r with
  | inl err =>
      match exc_message err with
      | None => raise (no_message err)
      | Some message =>
          logger_error ("unable to get rpc due to:" ++ message) ;;
          if contains "No such file or directory" message
             && (type params =? "put")
          then ret "no_file"
          else raise err
      end
  | inr checksum =>
      logger_info "rpc reponse recvd" ;;
      ret checksum
  end.

(** ["Transfer failed (different MD5 between local and remote) {} | {}"
    .format(local_checksum, remote_checksum)] *)
Definition transfer_failed (local_checksum remote_checksum : string) : string :=
  "Transfer failed (different MD5 between local and remote) "
  ++ local_checksum ++ " | " ++ remote_checksum.

(** [def main()], from the creation of [results] on.  The local variable
    [status] is unbound ([None]) until a branch assigns it. *)
Definition main (params : Params) : M W unit :=
  let results := mkResults "" false false in
  logger_info ("Starting the file transfer: " ++ file params) ;;
  let remote_path := remote_dir params in
  let local_file := local_dir params ++ "/" ++ file params in
  let remote_file := remote_dir params ++ "/" ++ file params in
  st <-
    (if type params =? "put" then
       logger_info ("computing local MD5 checksum on: " ++ local_file) ;;
       local_checksum <- local_md5 params local_file ;;
       logger_info ("Local checksum: " ++ local_checksum) ;;
       remote_checksum <- remote_md5 params remote_file ;;
       if (remote_checksum =? "no_file")
          || negb (remote_checksum =? local_checksum)
       then
         let status := "File not present, need to transfert" in
         logger_info status ;;
         with_SCP (scp1_put local_file remote_path) ;;
         logger_info ("computing remote MD5 checksum on: " ++ remote_file) ;;
         remote_checksum <- remote_md5 params remote_file ;;
         logger_info ("Remote checksum: " ++ remote_checksum) ;;
         if negb (remote_checksum =? local_checksum) then
           let status := transfer_failed local_checksum remote_checksum in
           logger_error status ;;
           fail_json status
         else
           logger_info "checksum check passed." ;;
           let status := "File pushed OK" in
           ret (Some status, mkResults (msg results) true (failed results))
       else
         let status := "File already present, skipping the scp" in
         logger_info status ;;
         ret (Some status, results)
     else ret (None, results)) ;;
  st <-
    (let '(status, results) := st in
     if type params =? "get" then
       logger_info ("computing remote MD5 checksum on: " ++ remote_file) ;;
       remote_checksum <- remote_md5 params remote_file ;;
       logger_info ("Remote checksum: " ++ remote_checksum) ;;
       local_checksum <- local_md5 params local_file ;;
       if (local_checksum =? "no_file")
          || negb (remote_checksum =? local_checksum)
       then
         with_SCP (scp1_get remote_file local_file) ;;
         logger_info ("Computing local MD5 checksum on: " ++ local_file) ;;
         local_checksum <- local_md5 params local_file ;;
         logger_info ("Local checksum: " ++ local_checksum) ;;
         if negb (remote_checksum =? local_checksum) then
           logger_error "Checksum check failed." ;;
           let status := transfer_failed local_checksum remote_checksum in
           fail_json status
         else
           logger_info "Checksum check passed." ;;
           let status := "File retrieved OK" in
           ret (Some status, mkResults (msg results) true (failed results))
       else
         let status := "File already present, skipping the scp" in
         logger_info status ;;
         ret (Some status, results)
     else ret (status, results)) ;;
  let '(status, results) := st in
  match status with
  | None => raise UnboundLocalError_status
  | Some status =>
      exit_json (mkResults status (changed results) (failed results))
  end.

End JuniperJunosFile.

(* ===================================================================== *)
(** * The stages of a run *)
(* ===================================================================== *)

(** The paths [main] builds from the parameters. *)
Definition local_file_of (params : Params) : string :=
  local_dir params ++ "/" ++ file params.
Definition remote_file_of (params : Params) : string :=
  remote_dir params ++ "/" ++ file params.

(** The value [status] takes when the checksums already agree. *)
Definition skip_message : string := "File already present, skipping the scp".

(** Source and destination among a pair (local checksum, remote checksum):
    an upload reads the controller and writes the device, a download the
    other way round. *)
Definition source_checksum (params : Params) (c : string * string) : string :=
  if type params =? "put" then fst c else snd c.
Definition destination_checksum (params : Params) (c : string * string) : string :=
  if type params =? "put" then snd c else fst c.

(** The test both branches of [main] make on the two checksums. *)
Definition needs_transfer (params : Params) (c : string * string) : bool :=
  (destination_checksum params c =? "no_file") || negb (snd c =? fst c).

Section Stages.

Context {W : Type} (env : Env W).

(** Comparing: both checksums, in the order [main] computes them (local
    first for an upload, remote first for a download). *)
Definition comparing (params : Params) : M W (string * string) :=
  if type params =? "put" then
    local_checksum <- local_md5 env params (local_file_of params) ;;
    remote_checksum <- remote_md5 env params (remote_file_of params) ;;
    ret (local_checksum, remote_checksum)
  else
    remote_checksum <- remote_md5 env params (remote_file_of params) ;;
    local_checksum <- local_md5 env params (local_file_of params) ;;
    ret (local_checksum, remote_checksum).

(** Transfer: the [with SCP(...)] statement of the branch. *)
Definition transfer (params : Params) : M W unit :=
  if type params =? "put"
  then with_SCP env (scp1_put env (local_file_of params) (remote_dir params))
  else with_SCP env (scp1_get env (remote_file_of params) (local_file_of params)).

(** Verifying: the checksum of the side just written. *)
Definition verifying (params : Params) : M W string :=
  if type params =? "put"
  then remote_md5 env params (remote_file_of params)
  else local_md5 env params (local_file_of params).

(** The pair (local checksum, remote checksum) once the destination has
    been read again. *)
Definition recomputed (params : Params) (c : string * string) (d : string)
  : string * string :=
  if type params =? "put" then (fst c, d) else (d, snd c).

(** How a run that transferred ends, given what the verification read. *)
Definition verdict (params : Params) (c : string * string) (v : result string)
  : result unit :=
  match v with
  | Return d =>
      let c' := recomputed params c d in
      if negb (snd c' =? fst c')
      then FailJson (transfer_failed (fst c') (snd c'))
      else ExitJson (mkResults
                       (if type params =? "put" then "File pushed OK"
                        else "File retrieved OK") true false)
  | Raise err => Raise err
  | ExitJson results => ExitJson results
  | FailJson message => FailJson message
  end.

(** The state machine of the specification:
    Comparing, then Skip or Transfer, then Verifying, then Success or Fail. *)
Definition sync (params : Params) : M W unit :=
  c <- comparing params ;;
  if needs_transfer params c then
    transfer params ;;
    d <- verifying params ;;
    (fun w => (verdict params c (Return d), w, []))
  else exit_json (mkResults skip_message false false).

End Stages.

(* ===================================================================== *)
(** * Observations on traces *)
(* ===================================================================== *)

(** The interactions with the outside, log lines left out. *)
Definition is_io (e : event) : bool :=
  match e with Log _ _ => false | _ => true end.
Definition io_events (t : list event) : list event := filter is_io t.

(** A transfer is attempted when the [with SCP(...)] statement is reached. *)
Definition is_attempt (e : event) : bool :=
  match e with ScpEnter _ => true | _ => false end.
Definition attempts (t : list event) : nat := length (filter is_attempt t).

Definition is_copy (e : event) : bool :=
  match e with ScpPut _ _ _ | ScpGet _ _ _ => true | _ => false end.
Definition copies (t : list event) : nat := length (filter is_copy t).

(** The [changed] flag Ansible reports for a finished run. *)
Definition changed_flag {A} (r : result A) : bool :=
  match r with ExitJson results => changed results | _ => false end.

(** The discipline of a scoped SCP session, as an automaton over the trace:
    a session that opened is followed at once by one copy and at once
    closed, whatever the copy answered; nothing is copied outside a session;
    no session is open at the end. *)
Inductive session : Type := Idle | Entered | Copied.

Fixpoint scoped (s : session) (t : list event) : bool :=
  match t with
  | [] => match s with Idle => true | _ => false end
  | e :: t' =>
      match s, e with
      | Idle, ScpEnter None => scoped Entered t'
      | Idle, ScpEnter (Some _) => scoped Idle t'
      | Idle, (ScpPut _ _ _ | ScpGet _ _ _ | ScpExit _) => false
      | Idle, _ => scoped Idle t'
      | Entered, (ScpPut _ _ _ | ScpGet _ _ _) => scoped Copied t'
      | Entered, _ => false
      | Copied, ScpExit _ => scoped Idle t'
      | Copied, _ => false
      end
  end.

(** 32 lowercase hexadecimal digits. *)
Definition is_hex_char (c : ascii) : bool := contains (String c "") "0123456789abcdef".

Fixpoint all_chars (f : ascii -> bool) (s : string) : bool :=
  match s with
  | EmptyString => true
  | String c s' => f c && all_chars f s'
  end.

Definition is_hexdigest (s : string) : bool :=
  (String.length s =? 32)%nat && all_chars is_hex_char s.

(** The blocks of [blocksize] bytes of a byte sequence, the last one
    possibly shorter. *)
Fixpoint blocks_aux (fuel : nat) (blocksize : nat) (data : list byte)
  : list (list byte) :=
  match fuel, data with
  | _, [] => []
  | O, _ => []
  | S fuel', _ =>
      firstn blocksize data :: blocks_aux fuel' blocksize (skipn blocksize data)
  end.
Definition blocks (blocksize : nat) (data : list byte) : list (list byte) :=
  blocks_aux (length data) blocksize data.

(** The buffers [_hashfile] hands to [hasher.update], in order: what the
    recording hasher has seen when the loop ends. *)
Definition update_calls (afile : list byte) (blocksize : Z) : list (list byte) :=
  recorded (hash_while (fst (read afile blocksize)) (snd (read afile blocksize))
                       (Recorder []) blocksize).

(** A computation whose trace, whatever the world, keeps the discipline of
    scoped sessions. *)
Definition well_scoped {W A} (m : M W A) : Prop :=
  forall w, scoped Idle (trace_of (m w)) = true.

(** A missing-file error of the operating system: errno [ENOENT]. *)
Definition missing_file (err : exn) : bool :=
  match exc_errno err with
  | Some n => (n =? ENOENT)%nat
  | None => false
  end.

(** The contract of the remote checksum provider: a checksum the device
    reports is an MD5 digest. *)
Definition device_replies_digests {W} (env : Env W) : Prop :=
  forall (path text : string) (w w1 : W),
    get_checksum_information env path w = (inr (Some text), w1) ->
    is_hexdigest (strip text) = true.

(** No intervening change: reading a file or asking the device for a
    checksum leaves the world as it is, and an SCP session does not touch
    what the controller reads from its own files.  The world then changes
    only by the copies the module makes. *)
Record undisturbed {W} (env : Env W) : Prop := {
  open_reads : forall path w, snd (open_rb env path w) = w;
  rpc_reads : forall path w, snd (get_checksum_information env path w) = w;
  enter_keeps_local : forall path w,
      fst (open_rb env path (snd (scp_enter env w))) = fst (open_rb env path w);
  put_keeps_local : forall local_file remote_path path w,
      fst (open_rb env path (snd (scp_put env local_file remote_path w)))
      = fst (open_rb env path w);
  exit_keeps_local : forall path w,
      fst (open_rb env path (snd (scp_exit env w))) = fst (open_rb env path w)
}.

(* ===================================================================== *)
(** * A reference environment *)
(* ===================================================================== *)

(** A controller and a device with one flat file table each, and an SCP
    link that copies faithfully, loses the last byte, or breaks during the
    copy.  It is used to run the module on concrete inputs. *)
Inductive node : Type :=
| File (content : list byte)
| Denied.

Inductive link : Type := Faithful | Truncating | Failing.

Record site : Type := Site {
  controller : list (string * node);
  device : list (string * list byte);
  scp_link : link
}.

Fixpoint lookup {A} (path : string) (table : list (string * A)) : option A :=
  match table with
  | [] => None
  | (p, a) :: table' => if p =? path then Some a else lookup path table'
  end.

Definition store {A} (path : string) (a : A) (table : list (string * A))
  : list (string * A) := (path, a) :: table.

(** [os.path.basename] *)
Fixpoint basename (path : string) : string :=
  match path with
  | EmptyString => EmptyString
  | String _ path' => if contains "/" path then basename path' else path
  end.

Definition newline : string := String (ascii_of_nat 10) EmptyString.

Definition site_open (path : string) (s : site) : (exn + list byte) * site :=
  match lookup path (controller s) with
  | Some (File content) => (inr content, s)
  | Some Denied => (inl (IOError EACCES "Permission denied" path), s)
  | None => (inl (IOError ENOENT "No such file or directory" path), s)
  end.

Definition site_rpc (path : string) (s : site) : (exn + option string) * site :=
  match lookup path (device s) with
  | Some content => (inr (Some (newline ++ MD5.md5 content ++ newline)), s)
  | None =>
      (inl (RpcError ("md5: " ++ path ++ ": No such file or directory")), s)
  end.

Definition connection_lost : exn :=
  Exn "SCPException" None "Connection lost" (Some "Connection lost").

Definition carried (l : link) (content : list byte) : list byte :=
  match l with
  | Truncating => removelast content
  | _ => content
  end.

Definition site_put (local_file remote_path : string) (s : site)
  : option exn * site :=
  match scp_link s, lookup local_file (controller s) with
  | Failing, _ => (Some connection_lost, s)
  | l, Some (File content) =>
      (None,
       Site (controller s)
            (store (remote_path ++ "/" ++ basename local_file)
                   (carried l content) (device s))
            (scp_link s))
  | _, Some Denied =>
      (Some (IOError EACCES "Permission denied" local_file), s)
  | _, None =>
      (Some (IOError ENOENT "No such file or directory" local_file), s)
  end.

Definition site_get (remote_file local_file : string) (s : site)
  : option exn * site :=
  match scp_link s, lookup remote_file (device s) with
  | Failing, _ => (Some connection_lost, s)
  | l, Some content =>
      (None,
       Site (store local_file (File (carried l content)) (controller s))
            (device s) (scp_link s))
  | _, None =>
      (Some (Exn "SCPException" None
               ("scp: " ++ remote_file ++ ": No such file or directory")
               (Some ("scp: " ++ remote_file ++ ": No such file or directory"))),
       s)
  end.

Definition site_env : Env site :=
  mkEnv site site_open site_rpc (fun s => (None, s)) site_put site_get
        (fun s => (None, s)).

(** A small package and two sets of parameters used in the examples. *)
Definition package : list byte := list_byte_of_string "junos-package".

Definition put_params : Params := mkParams "/srv/images" "/var/tmp" "pkg.tgz" "put".
Definition get_params : Params := mkParams "/srv/images" "/var/tmp" "pkg.tgz" "get".

Definition controller_only (l : link) : site :=
  Site [("/srv/images/pkg.tgz", File package)] [] l.
Definition device_only (l : link) : site :=
  Site [] [("/var/tmp/pkg.tgz", package)] l.
Definition in_sync : site :=
  Site [("/srv/images/pkg.tgz", File package)] [("/var/tmp/pkg.tgz", package)]
       Faithful.

(** The site an SCP session leaves behind. *)
Definition after_transfer (params : Params) (s : site) : site :=
  world_of (transfer site_env params s).


(** A path whose name holds the marker, on a controller where it may not be
    read. *)
Definition guarded_params : Params :=
  mkParams "/srv/No such file" "/var/tmp" "a.tgz" "get".
Definition guarded_site : site :=
  Site [("/srv/No such file/a.tgz", Denied)] [("/var/tmp/a.tgz", package)]
       Faithful.

(** The copy a run performs, with its answer, and the read of the
    destination that follows it, in the world [w] the copy left. *)
Definition copy_event (params : Params) (r : option exn) : event :=
  if type params =? "put"
  then ScpPut (local_file_of params) (remote_dir params) r
  else ScpGet (remote_file_of params) (local_file_of params) r.

Definition reread_event {W} (env : Env W) (params : Params) (w : W) : event :=
  if type params =? "put"
  then Rpc (remote_file_of params)
           (fst (get_checksum_information env (remote_file_of params) w))
  else Open (local_file_of params)
            (fst (open_rb env (local_file_of params) w)).

(* ===================================================================== *)
(** * import_juniper_junos_common *)
(* ===================================================================== *)

(** [del sys.path[0]] on an empty list. *)
Definition IndexError_del : exn :=
  Exn "IndexError" None "list assignment index out of range"
    (Some "list assignment index out of range").

(** [def import_juniper_junos_common()], from the reading of the module
    parameter on.  [import_path] is [module.params.get('_module_utils_path')],
    [sys_path] is [sys.path], and [import_] is the statement
    [import juniper_junos_common]: it finds the module through [sys.path] or
    raises, and running the module may change [sys.path].  The result comes
    with [sys.path] as the call leaves it. *)
Definition import_juniper_junos_common {Mod : Type}
    (import_path : option string)
    (import_ : list string -> (exn + Mod) * list string)
    (sys_path : list string) : result (option Mod) * list string :=
  let juniper_junos_common := None in
  match import_path with
  | Some import_path =>
      let sys_path := import_path :: sys_path in
      match import_ sys_path with
      | (inl err, sys_path) => (Raise err, sys_path)
      | (inr juniper_junos_common, sys_path) =>
          match sys_path with
          | [] => (Raise IndexError_del, [])
          | _ :: sys_path => (Return (Some juniper_junos_common), sys_path)
          end
      end
  | None => (Return juniper_junos_common, sys_path)
  end.

(* ===================================================================== *)
(** * More observations on runs *)
(* ===================================================================== *)

(** The four ways a run of the state machine can go, by what the stages
    answer: comparing fails; the file is already present; the transfer
    fails; the transfer completes and the destination is read again. *)
Inductive scenario {W} (env : Env W) (params : Params) (w : W) : Prop :=
| ComparingFailed (err : exn) (w1 : W) (t1 : list event) :
    comparing env params w = (Raise err, w1, t1) ->
    scenario env params w
| AlreadyPresent (c : string * string) (w1 : W) (t1 : list event) :
    comparing env params w = (Return c, w1, t1) ->
    needs_transfer params c = false ->
    scenario env params w
| TransferFailed (c : string * string) (w1 w2 : W) (t1 t2 : list event)
    (err : exn) :
    comparing env params w = (Return c, w1, t1) ->
    needs_transfer params c = true ->
    transfer env params w1 = (Raise err, w2, t2) ->
    scenario env params w
| Transferred (c : string * string) (w1 w2 w3 : W) (t1 t2 t3 : list event)
    (v : result string) :
    comparing env params w = (Return c, w1, t1) ->
    needs_transfer params c = true ->
    transfer env params w1 = (Return tt, w2, t2) ->
    verifying env params w2 = (v, w3, t3) ->
    (exists d, v = Return d) \/ (exists err, v = Raise err) ->
    scenario env params w.



(** A download leaves the device as it is: an SCP session that gets a file
    does not change what the device answers to the checksum RPC. *)
Record download_keeps_device {W} (env : Env W) : Prop := {
  enter_keeps_remote : forall path w,
      fst (get_checksum_information env path (snd (scp_enter env w)))
      = fst (get_checksum_information env path w);
  get_keeps_remote : forall remote_file local_file path w,
      fst (get_checksum_information env path
             (snd (scp_get env remote_file local_file w)))
      = fst (get_checksum_information env path w);
  exit_keeps_remote : forall path w,
      fst (get_checksum_information env path (snd (scp_exit env w)))
      = fst (get_checksum_information env path w)
}.

(* ===================================================================== *)
(** * More of the reference environment *)
(* ===================================================================== *)

(** A device whose reply to the checksum RPC holds no [checksum] element. *)
Definition mute_rpc (path : string) (s : site) : (exn + option string) * site :=
  (inr None, s).

Definition mute_env : Env site :=
  mkEnv site site_open mute_rpc (fun s => (None, s)) site_put site_get
        (fun s => (None, s)).

(** A device that answers the checksum RPC with the letters of the
    sentinel. *)
Definition sentinel_rpc (path : string) (s : site)
  : (exn + option string) * site :=
  (inr (Some "no_file"), s).

Definition sentinel_env : Env site :=
  mkEnv site site_open sentinel_rpc (fun s => (None, s)) site_put site_get
        (fun s => (None, s)).

(** A file named with a directory part: SCP stores it in [remote_dir] under
    its base name, while the module looks for it at [remote_dir/file]. *)
Definition nested_params : Params :=
  mkParams "/srv/images" "/var/tmp" "sub/pkg.tgz" "put".
Definition nested_site : site :=
  Site [("/srv/images/sub/pkg.tgz", File package)] [] Faithful.

(** A direction the argument spec does not offer. *)
Definition delete_params : Params :=
  mkParams "/srv/images" "/var/tmp" "pkg.tgz" "delete".

(** A download of the same remote file to another directory. *)
Definition backup_params : Params :=
  mkParams "/home/backup" "/var/tmp" "pkg.tgz" "get".

(** An importer for the examples: the module is found when the directory
    [/opt/module_utils] comes first. *)
Definition sample_import (sys_path : list string)
  : (exn + string) * list string :=
  match sys_path with
  | dir :: _ =>
      if dir =? "/opt/module_utils"
      then (inr "juniper_junos_common", sys_path)
      else (inl (Exn "ImportError" None "No module named juniper_junos_common"
                     (Some "No module named juniper_junos_common")), sys_path)
  | [] => (inl (Exn "ImportError" None "No module named juniper_junos_common"
                     (Some "No module named juniper_junos_common")), sys_path)
  end.

(* ===================================================================== *)
(** * Runs and proof automation *)
(* ===================================================================== *)

Ltac unfold_run :=
  cbv beta iota zeta delta
    [bind ret raise attempt emit logger_info logger_error exit_json
     fail_json open_ rpc_checksum with_SCP scp1_put scp1_get
     outcome world_of trace_of fst snd io_events filter is_io app
     negb orb andb type local_dir remote_dir file msg changed failed].

(** Case analysis on the innermost pending answer of the environment (or
    test on a value), so that the run can proceed one more step. *)
Ltac destruct_innermost :=
  match goal with
  | |- context [match ?x with _ => _ end] =>
      lazymatch x with
      | context [match _ with _ => _ end] => fail
      | _ => destruct x
      end
  end.

Ltac break_run := repeat (unfold_run; destruct_innermost).

Ltac unfold_stages :=
  unfold main, sync, comparing, transfer, verifying, needs_transfer,
    destination_checksum, source_checksum, verdict, recomputed,
    local_file_of, remote_file_of, local_md5, remote_md5, skip_message;
  cbn [type local_dir remote_dir file].

(** Two runs agree when they end the same way, in the same world, after the
    same interactions with the outside. *)
Definition same_run {W A} (r1 r2 : result A * W * list event) : Prop :=
  outcome r1 = outcome r2
  /\ world_of r1 = world_of r2
  /\ io_events (trace_of r1) = io_events (trace_of r2).

(* ===================================================================== *)
(** * Strings *)
(* ===================================================================== *)

Lemma prefix_append (n b : string) : String.prefix n (n ++ b) = true.
Proof.
  induction n as [|c n IH]; simpl.
  - now destruct b.
  - destruct (ascii_dec c c) as [_|ne]; [exact IH | now destruct ne].
Qed.

Lemma prefix_split (n h : string) :
  String.prefix n h = true -> exists b, h = n ++ b.
Proof.
  revert h; induction n as [|c n IH]; intros h Hp.
  - now exists h.
  - destruct h as [|c' h]; simpl in Hp; [discriminate|].
    destruct (ascii_dec c c') as [->|]; [|discriminate].
    destruct (IH h Hp) as [b ->]. now exists b.
Qed.

(** [contains] is Python's [in]: the needle occurs between some prefix and
    some suffix. *)
Lemma contains_split (n h : string) :
  contains n h = true <-> exists a b, h = a ++ n ++ b.
Proof.
  split.
  - induction h as [|c h IH]; cbn [contains]; intros Hc.
    + rewrite orb_false_r in Hc. destruct (prefix_split _ _ Hc) as [b Hb].
      now exists EmptyString, b.
    + apply orb_true_iff in Hc as [Hp|Hc].
      * destruct (prefix_split _ _ Hp) as [b Hb]. now exists EmptyString, b.
      * destruct (IH Hc) as (a & b & ->). now exists (String c a), b.
  - intros (a & b & ->). induction a as [|c a IH].
    + change ("" ++ n ++ b) with (n ++ b).
      destruct (n ++ b) eqn:E; cbn [contains]; rewrite <- E, prefix_append;
        reflexivity.
    + change (String c a ++ n ++ b) with (String c (a ++ n ++ b)).
      cbn [contains]. rewrite IH. apply orb_true_r.
Qed.

Lemma contains_middle (a n b : string) : contains n (a ++ n ++ b) = true.
Proof. apply contains_split. now exists a, b. Qed.

Lemma contains_end (a n : string) : contains n (a ++ n) = true.
Proof.
  apply contains_split. exists a, EmptyString.
  f_equal. clear. induction n; simpl; congruence.
Qed.

Lemma append_assoc (a b c : string) : (a ++ b) ++ c = a ++ b ++ c.
Proof. induction a; simpl; congruence. Qed.

Lemma eqb_neq_false (a b : string) : a <> b -> (a =? b) = false.
Proof. intros Hne. now apply String.eqb_neq. Qed.

Lemma is_hexdigest_length (s : string) :
  is_hexdigest s = true -> String.length s = 32%nat.
Proof.
  unfold is_hexdigest. intros Hd. apply andb_true_iff in Hd as [Hl _].
  now apply Nat.eqb_eq.
Qed.

(** A digest is never the sentinel ["no_file"]. *)
Lemma is_hexdigest_not_sentinel (s : string) :
  is_hexdigest s = true -> s <> "no_file".
Proof.
  intros Hd ->. apply is_hexdigest_length in Hd. discriminate.
Qed.

(* ===================================================================== *)
(** * hashlib.md5 *)
(* ===================================================================== *)


Example md5_abc :
  MD5.md5 (list_byte_of_string "abc") = "900150983cd24fb0d6963f7d28e17f72".
Proof. vm_compute. reflexivity. Qed.

Example md5_alphabet :
  MD5.md5 (list_byte_of_string "abcdefghijklmnopqrstuvwxyz")
  = "c3fcd3d76192e4007dfb496cca67e13b".
Proof. vm_compute. reflexivity. Qed.

Example md5_digits :
  MD5.md5 (list_byte_of_string
    "12345678901234567890123456789012345678901234567890123456789012345678901234567890")
  = "57edf4a22be3c955ac49da2e2107b67a".
Proof. vm_compute. reflexivity. Qed.

(** Around the padding boundary: 55, 56 and 64 bytes, and several blocks. *)
Example md5_55 : MD5.md5 (repeat "x"%byte 55) = "04364420e25c512fd958a70738aa8f72".
Proof. vm_compute. reflexivity. Qed.

Example md5_56 : MD5.md5 (repeat "x"%byte 56) = "668a72d5ba17f08e62dabcafad6db14b".
Proof. vm_compute. reflexivity. Qed.

Example md5_64 : MD5.md5 (repeat "x"%byte 64) = "c1bb4f81d892b2d57947682aeb252456".
Proof. vm_compute. reflexivity. Qed.

Example md5_200 : MD5.md5 (repeat "a"%byte 200) = "887f30b43b2867f4a9accceee7d16e6c".
Proof. vm_compute. reflexivity. Qed.

#[export] Instance md5_HasherLaws : HasherLaws MD5.state.
Proof.
  split.
  - reflexivity.
  - intros h a b. simpl. unfold MD5.md5_update.
    symmetry. apply fold_left_app.
Qed.

Lemma hex_digit_is_hex (z : Z) : is_hex_char (MD5.hex_digit z) = true.
Proof.
  unfold MD5.hex_digit. generalize (Z.to_nat z). intros n.
  do 16 (destruct n as [|n]; [reflexivity|]). reflexivity.
Qed.

(** [hexdigest()] of an MD5 object is 32 lowercase hexadecimal digits. *)
Lemma md5_hexdigest_is_hexdigest (s : MD5.state) :
  is_hexdigest (MD5.md5_hexdigest s) = true.
Proof.
  unfold MD5.md5_hexdigest. destruct (MD5.finish s) as [a b c d].
  unfold is_hexdigest, MD5.hex_word, MD5.hex_byte.
  cbn [String.length all_chars Nat.eqb andb].
  rewrite !hex_digit_is_hex. reflexivity.
Qed.

Lemma md5_is_hexdigest (data : list byte) : is_hexdigest (MD5.md5 data) = true.
Proof. apply md5_hexdigest_is_hexdigest. Qed.

(* ===================================================================== *)
(** * _hashfile *)
(* ===================================================================== *)

Lemma read_append (afile : list byte) (size : Z) :
  (fst (read afile size) ++ snd (read afile size))%list = afile.
Proof.
  unfold read. destruct (size <? 0)%Z; simpl.
  - apply app_nil_r.
  - apply firstn_skipn.
Qed.

(** With a block size other than zero, an empty read means end of file. *)
Lemma read_empty (afile : list byte) (size : Z) :
  size <> 0%Z -> fst (read afile size) = [] -> snd (read afile size) = [].
Proof.
  unfold read. intros Hs. destruct (size <? 0)%Z eqn:E; simpl.
  - reflexivity.
  - apply Z.ltb_ge in E. destruct (Z.to_nat size) as [|n] eqn:En; [lia|].
    destruct afile; simpl; [reflexivity | discriminate].
Qed.

Section HashfileFacts.

Context {H : Type} `{HasherLaws H}.

(** The loop feeds the hasher the buffer in hand and then the rest of the
    file. *)
Lemma hash_while_update (blocksize : Z) (Hs : blocksize <> 0%Z) :
  forall (n : nat) (buf afile : list byte) (hasher : H),
    (length buf + length afile <= n)%nat ->
    (buf = [] -> afile = []) ->
    hash_while buf afile hasher blocksize = update hasher (buf ++ afile)%list.
Proof.
  induction n as [|n IH]; intros buf afile hasher Hn Hend.
  - destruct buf; [|simpl in Hn; lia].
    rewrite (Hend eq_refl). simp hash_while. now rewrite update_nil.
  - destruct buf as [|b buf].
    + rewrite (Hend eq_refl). simp hash_while. now rewrite update_nil.
    + simp hash_while. rewrite IH.
      * rewrite update_app, read_append. reflexivity.
      * pose proof (f_equal (@length byte) (read_append afile blocksize)) as Hl.
        rewrite length_app in Hl. simpl in Hn. lia.
      * now apply read_empty.
Qed.

(** [_hashfile] returns the digest of the whole file for every block size
    other than zero. *)
Lemma hashfile_whole (afile : list byte) (hasher : H) (blocksize : Z) :
  blocksize <> 0%Z ->
  _hashfile afile hasher blocksize = hexdigest (update hasher afile).
Proof.
  intros Hs. unfold _hashfile.
  pose proof (read_append afile blocksize) as Happ.
  pose proof (read_empty afile blocksize Hs) as Hend.
  destruct (read afile blocksize) as [buf afile']. simpl in *.
  rewrite (hash_while_update blocksize Hs _ buf afile' hasher (le_n _) Hend).
  now rewrite Happ.
Qed.

End HashfileFacts.

Section HashfileCalls.

Context {H : Type} `{Hasher H}.

Lemma recorded_hash_while (blocksize : Z) :
  forall (n : nat) (buf afile : list byte) (r : recorder),
    (length buf + length afile <= n)%nat ->
    recorded (hash_while buf afile r blocksize)
    = (recorded r
       ++ recorded (hash_while buf afile (Recorder []) blocksize))%list.
Proof.
  induction n as [|n IH]; intros buf afile r Hn.
  - destruct buf; [|simpl in Hn; lia]. simp hash_while. simpl.
    now rewrite app_nil_r.
  - destruct buf as [|b buf].
    + simp hash_while. simpl. now rewrite app_nil_r.
    + simp hash_while.
      pose proof (f_equal (@length byte) (read_append afile blocksize)) as Hl.
      rewrite length_app in Hl. simpl in Hn.
      rewrite (IH _ _ (update r (b :: buf))) by lia.
      rewrite (IH _ _ (update (Recorder []) (b :: buf))) by lia.
      simpl. now rewrite <- app_assoc.
Qed.



End HashfileCalls.

Lemma blocks_aux_enough (bs : nat) :
  (0 < bs)%nat ->
  forall (fuel fuel' : nat) (data : list byte),
    (length data <= fuel)%nat -> (length data <= fuel')%nat ->
    blocks_aux fuel bs data = blocks_aux fuel' bs data.
Proof.
  intros Hbs.
  induction fuel as [|fuel IH]; intros fuel' data Hf Hf'.
  - destruct data; [now destruct fuel' | simpl in Hf; lia].
  - destruct data as [|b data]; [now destruct fuel'|].
    destruct fuel' as [|fuel']; [simpl in Hf'; lia|].
    cbn [blocks_aux]. f_equal.
    assert (Hl : (length (skipn bs (b :: data)) <= length data)%nat).
    { rewrite length_skipn. cbn [length]. lia. }
    cbn [length] in Hf, Hf'. apply IH; lia.
Qed.

Lemma blocks_aux_fuel (bs : nat) :
  (0 < bs)%nat ->
  forall (fuel : nat) (data : list byte),
    (length data <= fuel)%nat ->
    blocks_aux fuel bs data = blocks bs data.
Proof.
  intros Hbs fuel data Hf. unfold blocks.
  now apply blocks_aux_enough.
Qed.

Lemma blocks_cons (bs : nat) (b : byte) (data : list byte) :
  (0 < bs)%nat ->
  blocks bs (b :: data)
  = firstn bs (b :: data) :: blocks bs (skipn bs (b :: data)).
Proof.
  intros Hbs. unfold blocks at 1. cbn [length blocks_aux]. f_equal.
  apply blocks_aux_fuel; [exact Hbs|].
  rewrite length_skipn. cbn [length]. lia.
Qed.

(** The buffers handed to [update] are the blocks of the file. *)
Lemma recorded_blocks (bs : nat) (Hbs : (0 < bs)%nat) :
  forall (n : nat) (buf afile : list byte),
    (length buf + length afile <= n)%nat ->
    recorded (hash_while buf afile (Recorder []) (Z.of_nat bs))
    = match buf with
      | [] => []
      | _ => buf :: blocks bs afile
      end.
Proof.
  assert (Hread : forall afile, read afile (Z.of_nat bs)
                                = (firstn bs afile, skipn bs afile)).
  { intros afile. unfold read.
    destruct (Z.of_nat bs <? 0)%Z eqn:E; [apply Z.ltb_lt in E; lia|].
    now rewrite Nat2Z.id. }
  induction n as [|n IH]; intros buf afile Hn.
  - destruct buf; [|simpl in Hn; lia]. now simp hash_while.
  - destruct buf as [|b buf]; [now simp hash_while|].
    simp hash_while.
    rewrite (recorded_hash_while _ n) by
      (pose proof (f_equal (@length byte) (read_append afile (Z.of_nat bs))) as Hl;
       rewrite length_app in Hl; simpl in Hn; lia).
    rewrite Hread. cbn [fst snd]. rewrite IH by
      (rewrite length_firstn, length_skipn; cbn [length] in Hn; lia).
    simpl. f_equal.
    destruct afile as [|a afile]; [now destruct bs|].
    rewrite blocks_cons by exact Hbs.
    destruct bs as [|bs']; [lia|]. reflexivity.
Qed.

Lemma update_calls_blocks (bs : nat) (afile : list byte) :
  (0 < bs)%nat -> update_calls afile (Z.of_nat bs) = blocks bs afile.
Proof.
  intros Hbs. unfold update_calls.
  rewrite (recorded_blocks bs Hbs _ _ _ (le_n _)).
  unfold read. destruct (Z.of_nat bs <? 0)%Z eqn:E; [apply Z.ltb_lt in E; lia|].
  rewrite Nat2Z.id. cbn [fst snd].
  destruct afile as [|a afile]; [now destruct bs|].
  rewrite blocks_cons by exact Hbs.
  destruct bs as [|bs']; [lia|]. reflexivity.
Qed.

(** The blocks put end to end are the data; every block is non-empty and at
    most [bs] bytes long, and all but the last are exactly [bs] bytes. *)
Lemma blocks_shape (bs : nat) (Hbs : (0 < bs)%nat) :
  forall (n : nat) (data : list byte),
    (length data <= n)%nat ->
    concat (blocks bs data) = data
    /\ Forall (fun b => 0 < length b <= bs)%nat (blocks bs data)
    /\ Forall (fun b => length b = bs) (removelast (blocks bs data)).
Proof.
  induction n as [|n IH]; intros data Hn.
  - destruct data; [|simpl in Hn; lia]. now repeat split; constructor.
  - destruct data as [|b data]; [now repeat split; constructor|].
    rewrite blocks_cons by exact Hbs.
    assert (Hl : (length (skipn bs (b :: data)) <= n)%nat).
    { rewrite length_skipn. cbn [length] in *. lia. }
    destruct (IH _ Hl) as (Hc & Hall & Hbut).
    repeat split.
    + cbn [concat]. rewrite Hc. apply firstn_skipn.
    + constructor; [|exact Hall].
      rewrite length_firstn. cbn [length]. lia.
    + destruct (blocks bs (skipn bs (b :: data))) as [|x rest] eqn:E.
      * constructor.
      * change (removelast (firstn bs (b :: data) :: x :: rest))
          with (firstn bs (b :: data) :: removelast (x :: rest)).
        constructor; [|exact Hbut].
        rewrite length_firstn.
        destruct (skipn bs (b :: data)) as [|y ys] eqn:Es;
          [discriminate E|].
        pose proof (f_equal (@length byte) Es) as Hls.
        rewrite length_skipn in Hls. cbn [length] in Hls |- *. lia.
Qed.


(* ===================================================================== *)
(** * The module refines the state machine *)
(* ===================================================================== *)

Section Refinement.

Context {W : Type} (env : Env W).

Lemma main_refines_sync_put (params : Params) (w : W) :
  type params = "put" ->
  same_run (main env params w) (sync env params w).
Proof.
  destruct params as [ld rd f ty]. cbn [type]. intros ->.
  unfold same_run. unfold_stages.
  change ("put" =? "put") with true. change ("put" =? "get") with false.
  break_run; unfold_run; repeat split; reflexivity.
Qed.

Lemma main_refines_sync_get (params : Params) (w : W) :
  type params = "get" ->
  same_run (main env params w) (sync env params w).
Proof.
  destruct params as [ld rd f ty]. cbn [type]. intros ->.
  unfold same_run. unfold_stages.
  change ("get" =? "put") with false. change ("get" =? "get") with true.
  break_run; unfold_run; repeat split; reflexivity.
Qed.

(** For both directions the module is the state machine of the
    specification, up to log lines. *)
Lemma main_refines_sync (params : Params) (w : W) :
  type params = "put" \/ type params = "get" ->
  same_run (main env params w) (sync env params w).
Proof.
  intros [Hput|Hget];
    [now apply main_refines_sync_put | now apply main_refines_sync_get].
Qed.

End Refinement.

(* ===================================================================== *)
(** * The stages, one by one *)
(* ===================================================================== *)

Lemma io_events_app (t1 t2 : list event) :
  io_events (t1 ++ t2) = (io_events t1 ++ io_events t2)%list.
Proof. apply filter_app. Qed.

Lemma attempts_app (t1 t2 : list event) :
  attempts (t1 ++ t2)%list = attempts t1 + attempts t2.
Proof. unfold attempts. now rewrite filter_app, length_app. Qed.

Lemma copies_app (t1 t2 : list event) :
  copies (t1 ++ t2)%list = copies t1 + copies t2.
Proof. unfold copies. now rewrite filter_app, length_app. Qed.

Lemma attempts_io (t : list event) : attempts (io_events t) = attempts t.
Proof.
  unfold attempts, io_events.
  induction t as [|e t IH]; [reflexivity|].
  destruct e; simpl; congruence.
Qed.

Lemma copies_io (t : list event) : copies (io_events t) = copies t.
Proof.
  unfold copies, io_events.
  induction t as [|e t IH]; [reflexivity|].
  destruct e; simpl; congruence.
Qed.

Section StageFacts.

Context {W : Type} (env : Env W).

Lemma default_blocksize_nonzero : default_blocksize <> 0%Z.
Proof. unfold default_blocksize. lia. Qed.

(** [local_md5] by the answer of [open]. *)
Lemma local_md5_run (params : Params) (package : string) (w : W) :
  local_md5 env params package w
  = match open_rb env package w with
    | (inr afile, w1) =>
        (Return (MD5.md5 afile), w1,
         [Open package (inr afile); Log INFO "local hash calculated"])
    | (inl err, w1) =>
        (if contains "No such file" (format err) && (type params =? "get")
         then Return "no_file" else Raise err,
         w1,
         [Open package (inl err);
          Log ERROR ("unable to get the hash due to:" ++ format err)])
    end.
Proof.
  unfold local_md5. unfold_run.
  destruct (open_rb env package w) as [[err|afile] w1].
  - break_run; reflexivity.
  - now rewrite (hashfile_whole afile MD5.new _ default_blocksize_nonzero).
Qed.

(** [remote_md5] by the answer of the device. *)
Lemma remote_md5_run (params : Params) (remote_file : string) (w : W) :
  remote_md5 env params remote_file w
  = match get_checksum_information env remote_file w with
    | (inr (Some text), w1) =>
        (Return (strip text), w1,
         [Rpc remote_file (inr (Some text)); Log INFO "rpc reponse recvd"])
    | (inr None, w1) =>
        (Raise NoneType_strip, w1,
         [Rpc remote_file (inr None);
          Log ERROR
            "unable to get rpc due to:'NoneType' object has no attribute 'strip'"])
    | (inl err, w1) =>
        match exc_message err with
        | Some message =>
            (if contains "No such file or directory" message
                && (type params =? "put")
             then Return "no_file" else Raise err,
             w1,
             [Rpc remote_file (inl err);
              Log ERROR ("unable to get rpc due to:" ++ message)])
        | None => (Raise (no_message err), w1, [Rpc remote_file (inl err)])
        end
    end.
Proof.
  unfold remote_md5. unfold_run.
  destruct (get_checksum_information env remote_file w) as [[err|[text|]] w1].
  - break_run; reflexivity.
  - reflexivity.
  - cbn [exc_message NoneType_strip].
    replace (contains "No such file or directory"
               "'NoneType' object has no attribute 'strip'") with false
      by (vm_compute; reflexivity).
    reflexivity.
Qed.

(** Reading a checksum opens no SCP session. *)
Lemma local_md5_quiet (params : Params) (package : string) (w : W) :
  attempts (trace_of (local_md5 env params package w)) = 0
  /\ copies (trace_of (local_md5 env params package w)) = 0
  /\ io_events (trace_of (local_md5 env params package w))
     = [Open package (fst (open_rb env package w))].
Proof.
  rewrite local_md5_run.
  destruct (open_rb env package w) as [[err|afile] w1]; now repeat split.
Qed.

Lemma remote_md5_quiet (params : Params) (remote_file : string) (w : W) :
  attempts (trace_of (remote_md5 env params remote_file w)) = 0
  /\ copies (trace_of (remote_md5 env params remote_file w)) = 0
  /\ io_events (trace_of (remote_md5 env params remote_file w))
     = [Rpc remote_file (fst (get_checksum_information env remote_file w))].
Proof.
  rewrite remote_md5_run.
  destruct (get_checksum_information env remote_file w) as [[err|[text|]] w1];
    [destruct (exc_message err)| |]; now repeat split.
Qed.

(** A checksum helper returns a value or raises; it never leaves the
    process. *)
Lemma local_md5_outcome (params : Params) (package : string) (w : W) :
  (exists c, outcome (local_md5 env params package w) = Return c)
  \/ (exists err, outcome (local_md5 env params package w) = Raise err).
Proof.
  rewrite local_md5_run.
  destruct (open_rb env package w) as [[err|afile] w1]; unfold outcome; simpl.
  - destruct (contains _ _ && _); eauto.
  - eauto.
Qed.

Lemma remote_md5_outcome (params : Params) (remote_file : string) (w : W) :
  (exists c, outcome (remote_md5 env params remote_file w) = Return c)
  \/ (exists err, outcome (remote_md5 env params remote_file w) = Raise err).
Proof.
  rewrite remote_md5_run.
  destruct (get_checksum_information env remote_file w) as [[err|[text|]] w1];
    unfold outcome; simpl; eauto.
  destruct (exc_message err); simpl; eauto.
  destruct (contains _ _ && _); eauto.
Qed.

Lemma comparing_quiet (params : Params) (w : W) :
  attempts (trace_of (comparing env params w)) = 0
  /\ copies (trace_of (comparing env params w)) = 0.
Proof.
  unfold comparing, bind, ret.
  destruct (type params =? "put").
  - pose proof (local_md5_quiet params (local_file_of params) w) as (Ha & Hc & _).
    destruct (local_md5 env params (local_file_of params) w) as [[[lc| | |] w1] t1];
      try (split; assumption).
    pose proof (remote_md5_quiet params (remote_file_of params) w1) as (Ha' & Hc' & _).
    destruct (remote_md5 env params (remote_file_of params) w1) as [[[rc| | |] w2] t2];
      cbn [trace_of snd] in *; rewrite ?attempts_app, ?copies_app;
      change (attempts []) with 0; change (copies []) with 0; split; lia.
  - pose proof (remote_md5_quiet params (remote_file_of params) w) as (Ha & Hc & _).
    destruct (remote_md5 env params (remote_file_of params) w) as [[[rc| | |] w1] t1];
      try (split; assumption).
    pose proof (local_md5_quiet params (local_file_of params) w1) as (Ha' & Hc' & _).
    destruct (local_md5 env params (local_file_of params) w1) as [[[lc| | |] w2] t2];
      cbn [trace_of snd] in *; rewrite ?attempts_app, ?copies_app;
      change (attempts []) with 0; change (copies []) with 0; split; lia.
Qed.

(** The [with SCP(...)] statement, by the answers of the session. *)
Lemma transfer_run (params : Params) (w : W) :
  transfer env params w
  = match scp_enter env w with
    | (Some err, w1) => (Raise err, w1, [ScpEnter (Some err)])
    | (None, w1) =>
        let '(r1, w2) :=
          if type params =? "put"
          then scp_put env (local_file_of params) (remote_dir params) w1
          else scp_get env (remote_file_of params) (local_file_of params) w1 in
        let '(r2, w3) := scp_exit env w2 in
        (match r2, r1 with
         | Some err, _ => Raise err
         | None, Some err => Raise err
         | None, None => Return tt
         end,
         w3, [ScpEnter None; copy_event params r1; ScpExit r2])
    end.
Proof.
  unfold transfer, copy_event, with_SCP, scp1_put, scp1_get.
  destruct (type params =? "put");
    destruct (scp_enter env w) as [[err|] w1]; try reflexivity.
  - destruct (scp_put env _ _ w1) as [[err|] w2];
      destruct (scp_exit env w2) as [[err'|] w3]; reflexivity.
  - destruct (scp_get env _ _ w1) as [[err|] w2];
      destruct (scp_exit env w2) as [[err'|] w3]; reflexivity.
Qed.

(** Reaching the [with] statement is one attempt, however it ends. *)
Lemma transfer_attempts (params : Params) (w : W) :
  attempts (trace_of (transfer env params w)) = 1.
Proof.
  rewrite transfer_run. unfold copy_event.
  destruct (scp_enter env w) as [[err|] w1]; [reflexivity|].
  destruct (type params =? "put").
  - destruct (scp_put env _ _ w1) as [r1 w2].
    now destruct (scp_exit env w2) as [r2 w3].
  - destruct (scp_get env _ _ w1) as [r1 w2].
    now destruct (scp_exit env w2) as [r2 w3].
Qed.

Lemma transfer_copies (params : Params) (w : W) :
  copies (trace_of (transfer env params w)) <= 1.
Proof.
  rewrite transfer_run. unfold copy_event, copies.
  destruct (scp_enter env w) as [[err|] w1]; [simpl; lia|].
  destruct (type params =? "put").
  - destruct (scp_put env _ _ w1) as [r1 w2].
    destruct (scp_exit env w2) as [r2 w3]. simpl. lia.
  - destruct (scp_get env _ _ w1) as [r1 w2].
    destruct (scp_exit env w2) as [r2 w3]. simpl. lia.
Qed.

Lemma transfer_outcome (params : Params) (w : W) :
  outcome (transfer env params w) = Return tt
  \/ exists err, outcome (transfer env params w) = Raise err.
Proof.
  rewrite transfer_run.
  destruct (scp_enter env w) as [[err|] w1]; [right; now exists err|].
  destruct (if type params =? "put" then _ else _) as [[err1|] w2];
    destruct (scp_exit env w2) as [[err2|] w3]; unfold outcome; simpl; eauto.
Qed.

(** A transfer that completed opened one session, copied once and closed
    the session, all without error. *)
Lemma transfer_completed (params : Params) (w w2 : W) (t2 : list event) :
  transfer env params w = (Return tt, w2, t2) ->
  t2 = [ScpEnter None; copy_event params None; ScpExit None].
Proof.
  rewrite transfer_run.
  destruct (scp_enter env w) as [[err|] w1]; [discriminate|].
  destruct (if type params =? "put" then _ else _) as [[err1|] w']; 
    destruct (scp_exit env w') as [[err2|] w3]; intros E; inversion E.
  reflexivity.
Qed.

(** Verifying reads the destination once, and does nothing else. *)
Lemma verifying_io (params : Params) (w : W) :
  io_events (trace_of (verifying env params w)) = [reread_event env params w].
Proof.
  unfold verifying, reread_event. destruct (type params =? "put").
  - apply remote_md5_quiet.
  - apply local_md5_quiet.
Qed.

Lemma verifying_quiet (params : Params) (w : W) :
  attempts (trace_of (verifying env params w)) = 0
  /\ copies (trace_of (verifying env params w)) = 0.
Proof.
  unfold verifying. destruct (type params =? "put").
  - split; apply remote_md5_quiet.
  - split; apply local_md5_quiet.
Qed.

End StageFacts.

Section Scenarios.

Context {W : Type} (env : Env W).

Lemma sync_comparing_fails (params : Params) (w w1 : W) (t1 : list event)
    (err : exn) :
  comparing env params w = (Raise err, w1, t1) ->
  sync env params w = (Raise err, w1, t1).
Proof. intros Hc. unfold sync, bind. now rewrite Hc. Qed.

Lemma sync_skip (params : Params) (w w1 : W) (t1 : list event)
    (c : string * string) :
  comparing env params w = (Return c, w1, t1) ->
  needs_transfer params c = false ->
  sync env params w
  = (ExitJson (mkResults skip_message false false), w1, (t1 ++ [])%list).
Proof. intros Hc Hn. unfold sync, bind. now rewrite Hc, Hn. Qed.

Lemma sync_transfer_raises (params : Params) (w w1 w2 : W)
    (t1 t2 : list event) (c : string * string) (err : exn) :
  comparing env params w = (Return c, w1, t1) ->
  needs_transfer params c = true ->
  transfer env params w1 = (Raise err, w2, t2) ->
  sync env params w = (Raise err, w2, (t1 ++ t2)%list).
Proof. intros Hc Hn Ht. unfold sync, bind. now rewrite Hc, Hn, Ht. Qed.

Lemma sync_verifies (params : Params) (w w1 w2 w3 : W)
    (t1 t2 t3 : list event) (c : string * string) (v : result string) :
  comparing env params w = (Return c, w1, t1) ->
  needs_transfer params c = true ->
  transfer env params w1 = (Return tt, w2, t2) ->
  verifying env params w2 = (v, w3, t3) ->
  outcome (sync env params w) = verdict params c v
  /\ world_of (sync env params w) = w3
  /\ io_events (trace_of (sync env params w))
     = (io_events t1 ++ io_events t2 ++ io_events t3)%list.
Proof.
  intros Hc Hn Ht Hv. unfold sync, bind. rewrite Hc, Hn, Ht, Hv.
  destruct v; cbn [outcome world_of trace_of fst snd];
    rewrite ?app_nil_r, !io_events_app; now repeat split.
Qed.

(** The scenarios of a run of [main], by what each stage answered. *)

Lemma main_comparing_fails (params : Params) (w w1 : W) (t1 : list event)
    (err : exn) :
  type params = "put" \/ type params = "get" ->
  comparing env params w = (Raise err, w1, t1) ->
  outcome (main env params w) = Raise err
  /\ world_of (main env params w) = w1
  /\ io_events (trace_of (main env params w)) = io_events t1.
Proof.
  intros Hty Hc. destruct (main_refines_sync env params w Hty) as (Ho & Hw & Ht).
  rewrite Ho, Hw, Ht, (sync_comparing_fails _ _ _ _ _ Hc). now repeat split.
Qed.

Lemma main_skips (params : Params) (w w1 : W) (t1 : list event)
    (c : string * string) :
  type params = "put" \/ type params = "get" ->
  comparing env params w = (Return c, w1, t1) ->
  needs_transfer params c = false ->
  outcome (main env params w) = ExitJson (mkResults skip_message false false)
  /\ world_of (main env params w) = w1
  /\ io_events (trace_of (main env params w)) = io_events t1.
Proof.
  intros Hty Hc Hn.
  destruct (main_refines_sync env params w Hty) as (Ho & Hw & Ht).
  rewrite Ho, Hw, Ht, (sync_skip _ _ _ _ _ Hc Hn).
  cbn [outcome world_of trace_of fst snd]. rewrite app_nil_r. now repeat split.
Qed.

Lemma main_transfer_raises (params : Params) (w w1 w2 : W)
    (t1 t2 : list event) (c : string * string) (err : exn) :
  type params = "put" \/ type params = "get" ->
  comparing env params w = (Return c, w1, t1) ->
  needs_transfer params c = true ->
  transfer env params w1 = (Raise err, w2, t2) ->
  outcome (main env params w) = Raise err
  /\ world_of (main env params w) = w2
  /\ io_events (trace_of (main env params w))
     = (io_events t1 ++ io_events t2)%list.
Proof.
  intros Hty Hc Hn Htr.
  destruct (main_refines_sync env params w Hty) as (Ho & Hw & Ht).
  rewrite Ho, Hw, Ht, (sync_transfer_raises _ _ _ _ _ _ _ _ Hc Hn Htr).
  cbn [outcome world_of trace_of fst snd]. rewrite io_events_app.
  now repeat split.
Qed.

Lemma main_verifies (params : Params) (w w1 w2 w3 : W)
    (t1 t2 t3 : list event) (c : string * string) (v : result string) :
  type params = "put" \/ type params = "get" ->
  comparing env params w = (Return c, w1, t1) ->
  needs_transfer params c = true ->
  transfer env params w1 = (Return tt, w2, t2) ->
  verifying env params w2 = (v, w3, t3) ->
  outcome (main env params w) = verdict params c v
  /\ world_of (main env params w) = w3
  /\ io_events (trace_of (main env params w))
     = (io_events t1 ++ io_events t2 ++ io_events t3)%list.
Proof.
  intros Hty Hc Hn Htr Hv.
  destruct (main_refines_sync env params w Hty) as (Ho & Hw & Ht).
  rewrite Ho, Hw, Ht. eapply sync_verifies; eassumption.
Qed.

(** The number of transfers a run attempts is decided by the two checksums
    alone. *)
Lemma main_attempts (params : Params) (w w1 : W) (t1 : list event)
    (c : string * string) :
  type params = "put" \/ type params = "get" ->
  comparing env params w = (Return c, w1, t1) ->
  attempts (trace_of (main env params w))
  = (if needs_transfer params c then 1 else 0)
  /\ copies (trace_of (main env params w))
     <= (if needs_transfer params c then 1 else 0).
Proof.
  intros Hty Hc.
  pose proof (comparing_quiet env params w) as (Ha1 & Hc1).
  rewrite Hc in Ha1, Hc1. cbn [trace_of snd] in Ha1, Hc1.
  rewrite <- attempts_io, <- copies_io.
  destruct (needs_transfer params c) eqn:Hn.
  - pose proof (transfer_attempts env params w1) as Ha2.
    pose proof (transfer_copies env params w1) as Hc2.
    destruct (transfer env params w1) as [[r2 w2] t2] eqn:Htr.
    cbn [trace_of snd] in Ha2, Hc2.
    destruct (transfer_outcome env params w1) as [Hr|[err Hr]];
      rewrite Htr in Hr; cbn [outcome fst] in Hr; subst r2.
    + pose proof (verifying_quiet env params w2) as (Ha3 & Hc3).
      destruct (verifying env params w2) as [[v w3] t3] eqn:Hv.
      cbn [trace_of snd] in Ha3, Hc3.
      destruct (main_verifies _ _ _ _ _ _ _ _ _ _ Hty Hc Hn Htr Hv)
        as (_ & _ & ->).
      rewrite <- !io_events_app, attempts_io, copies_io.
      rewrite !attempts_app, !copies_app. split; lia.
    + destruct (main_transfer_raises _ _ _ _ _ _ _ _ Hty Hc Hn Htr)
        as (_ & _ & ->).
      rewrite <- !io_events_app, attempts_io, copies_io.
      rewrite !attempts_app, !copies_app. split; lia.
  - destruct (main_skips _ _ _ _ _ Hty Hc Hn) as (_ & _ & ->).
    rewrite attempts_io, copies_io. split; lia.
Qed.

(** The test of [main] in words: the destination is absent, or differs
    from the source. *)
Lemma needs_transfer_iff (params : Params) (c : string * string) :
  type params = "put" \/ type params = "get" ->
  needs_transfer params c = true
  <-> destination_checksum params c = "no_file"
      \/ destination_checksum params c <> source_checksum params c.
Proof.
  intros Hty. unfold needs_transfer, destination_checksum, source_checksum.
  rewrite orb_true_iff, negb_true_iff, String.eqb_eq, String.eqb_neq.
  destruct Hty as [-> | ->]; cbn [String.eqb Ascii.eqb Bool.eqb]; cbv iota.
  - reflexivity.
  - split; (intros [Ha|Hd]; [now left | right; congruence]).
Qed.

End Scenarios.

(* ===================================================================== *)
(** * The decision and the verification *)
(* ===================================================================== *)

Section Claims.

Context {W : Type} (env : Env W).


(** C2.  In both directions, when a run transfers and the checksum of the
    destination, read again after the copy, differs from the checksum of
    the source, [main] ends in [fail_json]; the message holds the local and
    the remote checksum, and no [changed=true] is reported. *)
Theorem mismatch_after_transfer_is_fatal
    (params : Params) (w w1 w2 w3 : W) (t1 t2 t3 : list event)
    (c : string * string) (d : string) :
  type params = "put" \/ type params = "get" ->
  comparing env params w = (Return c, w1, t1) ->
  0 < attempts (trace_of (main env params w)) ->
  transfer env params w1 = (Return tt, w2, t2) ->
  verifying env params w2 = (Return d, w3, t3) ->
  d <> source_checksum params c ->
  outcome (main env params w)
  = FailJson (transfer_failed (fst (recomputed params c d))
                              (snd (recomputed params c d)))
  /\ contains (fst (recomputed params c d))
       (transfer_failed (fst (recomputed params c d))
                        (snd (recomputed params c d))) = true
  /\ contains (snd (recomputed params c d))
       (transfer_failed (fst (recomputed params c d))
                        (snd (recomputed params c d))) = true
  /\ (source_checksum params (recomputed params c d) = source_checksum params c
      /\ destination_checksum params (recomputed params c d) = d)
  /\ changed_flag (outcome (main env params w)) = false.
Proof.
  intros Hty Hc Hatt Htr Hv Hd.
  destruct (main_attempts env params w w1 t1 c Hty Hc) as (Ha & _).
  destruct (needs_transfer params c) eqn:Hn; [|lia].
  destruct (main_verifies env params _ _ _ _ _ _ _ _ _ Hty Hc Hn Htr Hv)
    as (Ho & _ & _).
  assert (Hne : (snd (recomputed params c d) =? fst (recomputed params c d))
                = false).
  { apply String.eqb_neq. revert Hd.
    unfold recomputed, source_checksum.
    destruct Hty as [-> | ->]; cbn [String.eqb Ascii.eqb Bool.eqb fst snd];
      cbv iota; cbn [fst snd]; congruence. }
  rewrite Ho. unfold verdict. rewrite Hne. cbn [negb].
  split; [reflexivity|].
  split; [apply (contains_middle
                   "Transfer failed (different MD5 between local and remote) ")|].
  split; [unfold transfer_failed; rewrite <- !append_assoc; apply contains_end|].
  split; [|reflexivity].
  unfold recomputed, source_checksum, destination_checksum.
  destruct Hty as [-> | ->]; cbn [String.eqb Ascii.eqb Bool.eqb]; cbv iota;
    now split.
Qed.


(** C5.  In both directions, when the local and the remote side hold the
    same digest, the run is a Skip: it opens no SCP session, copies
    nothing, and exits with [changed=false] and the message
    ["File already present, skipping the scp"]. *)
Theorem matching_digests_skip
    (params : Params) (w w1 : W) (t1 : list event) (d : string) :
  type params = "put" \/ type params = "get" ->
  comparing env params w = (Return (d, d), w1, t1) ->
  d <> "no_file" ->
  outcome (main env params w)
  = ExitJson (mkResults "File already present, skipping the scp" false false)
  /\ attempts (trace_of (main env params w)) = 0
  /\ copies (trace_of (main env params w)) = 0
  /\ io_events (trace_of (main env params w)) = io_events t1
  /\ world_of (main env params w) = w1.
Proof.
  intros Hty Hc Hd.
  assert (Hn : needs_transfer params (d, d) = false).
  { unfold needs_transfer, destination_checksum.
    destruct (type params =? "put"); cbn [fst snd];
      now rewrite String.eqb_refl, (eqb_neq_false _ _ Hd). }
  destruct (main_skips env params _ _ _ _ Hty Hc Hn) as (Ho & Hw & Ht).
  destruct (main_attempts env params _ _ _ _ Hty Hc) as (Ha & Hcp).
  rewrite Hn in Ha, Hcp.
  repeat split; try assumption; lia.
Qed.

(** The verdict after a transfer looks at the checksum of the source and at
    the checksum read after the copy, not at what the destination held
    before. *)
Lemma verdict_ignores_old_destination (params : Params)
    (c c' : string * string) (v : result string) :
  type params = "put" \/ type params = "get" ->
  source_checksum params c = source_checksum params c' ->
  verdict params c v = verdict params c' v.
Proof.
  intros Hty. unfold source_checksum, verdict, recomputed.
  destruct Hty as [-> | ->]; cbn [String.eqb Ascii.eqb Bool.eqb]; cbv iota;
    intros ->; reflexivity.
Qed.

Lemma io_events_session (params : Params) (r r' : option exn) (e : event) :
  (io_events [ScpEnter None; copy_event params r; ScpExit r'] ++ [e])%list
  = [ScpEnter None; copy_event params r; ScpExit r'; e].
Proof. unfold copy_event. now destruct (type params =? "put"). Qed.

(** C6.  In both directions, a run whose transfer completes has opened
    exactly one SCP session and copied exactly once; it then reads the
    checksum of the destination exactly once, in the world the copy left,
    and that answer, not the checksum obtained before the copy, decides
    between success and failure. *)
Theorem one_transfer_then_one_fresh_verification
    (params : Params) (w w1 w2 w3 : W) (t1 t2 t3 : list event)
    (c : string * string) (v : result string) :
  type params = "put" \/ type params = "get" ->
  comparing env params w = (Return c, w1, t1) ->
  0 < attempts (trace_of (main env params w)) ->
  transfer env params w1 = (Return tt, w2, t2) ->
  verifying env params w2 = (v, w3, t3) ->
  io_events (trace_of (main env params w))
  = (io_events t1
     ++ [ScpEnter None; copy_event params None; ScpExit None;
         reread_event env params w2])%list
  /\ attempts (trace_of (main env params w)) = 1
  /\ copies (trace_of (main env params w)) = 1
  /\ attempts t1 = 0 /\ copies t1 = 0
  /\ outcome (main env params w) = verdict params c v
  /\ (forall c', source_checksum params c' = source_checksum params c ->
                 verdict params c' v = verdict params c v)
  /\ world_of (main env params w) = w3.
Proof.
  intros Hty Hc Hatt Htr Hv.
  destruct (main_attempts env params w w1 t1 c Hty Hc) as (Ha & _).
  destruct (needs_transfer params c) eqn:Hn; [|lia].
  destruct (main_verifies env params _ _ _ _ _ _ _ _ _ Hty Hc Hn Htr Hv)
    as (Ho & Hw & Ht).
  pose proof (verifying_io env params w2) as Hio.
  rewrite Hv in Hio. cbn [trace_of snd] in Hio.
  rewrite (transfer_completed env params _ _ _ Htr), Hio in Ht.
  rewrite io_events_session in Ht.
  pose proof (comparing_quiet env params w) as (Ha1 & Hc1).
  rewrite Hc in Ha1, Hc1. cbn [trace_of snd] in Ha1, Hc1.
  split; [exact Ht|].
  split; [exact Ha|].
  split.
  { rewrite <- copies_io, Ht, copies_app, copies_io, Hc1.
    unfold copy_event, reread_event. now destruct (type params =? "put"). }
  split; [exact Ha1|]. split; [exact Hc1|]. split; [exact Ho|].
  split; [|exact Hw].
  intros c' Hs. now apply verdict_ignores_old_destination.
Qed.

End Claims.


(* ===================================================================== *)
(** * The SCP session is scoped *)
(* ===================================================================== *)

Lemma scoped_app (t1 t2 : list event) :
  forall s, scoped s t1 = true -> scoped Idle t2 = true ->
            scoped s (t1 ++ t2)%list = true.
Proof.
  induction t1 as [|e t1 IH]; intros s H1 H2.
  - destruct s; [exact H2 | discriminate | discriminate].
  - destruct s, e as [| | |[]| | |]; simpl in *;
      try discriminate; now apply IH.
Qed.

(** In an accepted trace every copy stands right after the opening of a
    session and right before its closing. *)
Lemma scoped_copy_bracketed (e : event) (post : list event) :
  is_copy e = true ->
  forall (pre : list event) (s : session),
    scoped s (pre ++ e :: post)%list = true ->
    ((s = Entered /\ pre = [])
     \/ exists pre', pre = (pre' ++ [ScpEnter None])%list)
    /\ exists r post', post = ScpExit r :: post'.
Proof.
  intros He. induction pre as [|a pre IH]; intros s Hs.
  - destruct s, e as [| | |[]| | |]; simpl in *; try discriminate;
      (split; [now left|]);
      destruct post as [|[| | | | | |] post']; try discriminate; eauto.
  - assert (Hstep : exists s', scoped s' (pre ++ e :: post)%list = true
                               /\ (s' = Entered -> a = ScpEnter None)).
    { destruct s, a as [| | |[]| | |]; simpl in Hs; try discriminate;
        eexists; (split; [exact Hs|]); try discriminate; reflexivity. }
    destruct Hstep as (s' & Hs' & Hent).
    destruct (IH s' Hs') as ([(-> & ->)|(pre' & ->)] & Hpost).
    + split; [|exact Hpost]. right. exists []. now rewrite (Hent eq_refl).
    + split; [|exact Hpost]. right. now exists (a :: pre').
Qed.

Section Scoped.

Context {W : Type} (env : Env W).

Lemma well_scoped_ret {A} (a : A) : well_scoped (@ret W A a).
Proof. now intros w. Qed.

Lemma well_scoped_raise {A} (err : exn) : well_scoped (@raise W A err).
Proof. now intros w. Qed.

Lemma well_scoped_exit_json {A} (results : Results) :
  well_scoped (@exit_json W A results).
Proof. now intros w. Qed.

Lemma well_scoped_fail_json {A} (message : string) :
  well_scoped (@fail_json W A message).
Proof. now intros w. Qed.

Lemma well_scoped_logger_info (message : string) :
  well_scoped (@logger_info W message).
Proof. now intros w. Qed.

Lemma well_scoped_logger_error (message : string) :
  well_scoped (@logger_error W message).
Proof. now intros w. Qed.

Lemma well_scoped_bind {A B} (m : M W A) (k : A -> M W B) :
  well_scoped m -> (forall a, well_scoped (k a)) -> well_scoped (bind m k).
Proof.
  intros Hm Hk w. unfold bind. specialize (Hm w).
  destruct (m w) as [[[a| | |] w1] t1]; try exact Hm.
  specialize (Hk a w1). destruct (k a w1) as [[r w2] t2].
  now apply scoped_app.
Qed.

Lemma well_scoped_attempt {A} (m : M W A) :
  well_scoped m -> well_scoped (attempt m).
Proof.
  intros Hm w. unfold attempt. specialize (Hm w).
  now destruct (m w) as [[[a| | |] w1] t1].
Qed.

Lemma well_scoped_open (package : string) : well_scoped (open_ env package).
Proof.
  intros w. unfold open_. now destruct (open_rb env package w) as [[err|afile] w1].
Qed.

Lemma well_scoped_rpc (remote_file : string) :
  well_scoped (rpc_checksum env remote_file).
Proof.
  intros w. unfold rpc_checksum.
  now destruct (get_checksum_information env remote_file w) as [[err|reply] w1].
Qed.

(** The [with] statement around one copy: entered, copied, left. *)
Lemma well_scoped_with_put (local_file remote_path : string) :
  well_scoped (with_SCP env (scp1_put env local_file remote_path)).
Proof.
  intros w. unfold with_SCP, scp1_put.
  destruct (scp_enter env w) as [[err|] w1]; [reflexivity|].
  destruct (scp_put env local_file remote_path w1) as [r1 w2].
  now destruct (scp_exit env w2) as [r2 w3].
Qed.

Lemma well_scoped_with_get (remote_file local_file : string) :
  well_scoped (with_SCP env (scp1_get env remote_file local_file)).
Proof.
  intros w. unfold with_SCP, scp1_get.
  destruct (scp_enter env w) as [[err|] w1]; [reflexivity|].
  destruct (scp_get env remote_file local_file w1) as [r1 w2].
  now destruct (scp_exit env w2) as [r2 w3].
Qed.

Ltac scoped_steps :=
  repeat first
    [ apply well_scoped_bind
    | apply well_scoped_attempt
    | apply well_scoped_ret
    | apply well_scoped_raise
    | apply well_scoped_exit_json
    | apply well_scoped_fail_json
    | apply well_scoped_logger_info
    | apply well_scoped_logger_error
    | apply well_scoped_open
    | apply well_scoped_rpc
    | apply well_scoped_with_put
    | apply well_scoped_with_get
    | match goal with
      | |- forall _, _ => intro
      | |- well_scoped (match ?x with _ => _ end) => destruct x
      end ].

Lemma well_scoped_local_md5 (params : Params) (package : string) :
  well_scoped (local_md5 env params package).
Proof. unfold local_md5. scoped_steps. Qed.

Lemma well_scoped_remote_md5 (params : Params) (remote_file : string) :
  well_scoped (remote_md5 env params remote_file).
Proof. unfold remote_md5. scoped_steps. Qed.

Lemma well_scoped_main (params : Params) : well_scoped (main env params).
Proof.
  unfold main.
  repeat first
    [ apply well_scoped_local_md5 | apply well_scoped_remote_md5
    | progress scoped_steps ].
Qed.

(** C9.  In every run of [main], for all parameters and whatever the
    environment answers, the SCP session is scoped: a session that opened
    is followed at once by the copy and at once closed, also when the copy
    raised; nothing is copied outside a session, and no session is left
    open when the run ends.  The session is the environment's own: when a
    transfer is due, [scp_enter] is called in the world the comparison left
    and the copy in the world [scp_enter] left; whatever the copy answers,
    [scp_exit] is called in the world the copy left, the trace records its
    answer, and the run goes on (or ends, when the copy or the release
    raised) in the world [scp_exit] left.  A session that could not be
    opened is neither used nor closed. *)
Theorem scp_session_is_scoped (params : Params) (w : W) :
  scoped Idle (trace_of (main env params w)) = true
  /\ (forall (pre post : list event) (e : event),
         trace_of (main env params w) = (pre ++ e :: post)%list ->
         is_copy e = true ->
         exists pre' r post',
           pre = (pre' ++ [ScpEnter None])%list /\ post = ScpExit r :: post')
  /\ (forall (c : string * string) (w1 wa wb wc : W) (t1 : list event)
             (r1 r2 : option exn),
         type params = "put" \/ type params = "get" ->
         comparing env params w = (Return c, w1, t1) ->
         needs_transfer params c = true ->
         scp_enter env w1 = (None, wa) ->
         (if type params =? "put"
          then scp_put env (local_file_of params) (remote_dir params) wa
          else scp_get env (remote_file_of params) (local_file_of params) wa)
         = (r1, wb) ->
         scp_exit env wb = (r2, wc) ->
         exists rest : list event,
           io_events (trace_of (main env params w))
           = (io_events t1
              ++ [ScpEnter None; copy_event params r1; ScpExit r2]
              ++ rest)%list
           /\ match r2, r1 with
              | Some err, _ =>
                  outcome (main env params w) = Raise err
                  /\ world_of (main env params w) = wc /\ rest = []
              | None, Some err =>
                  outcome (main env params w) = Raise err
                  /\ world_of (main env params w) = wc /\ rest = []
              | None, None =>
                  world_of (main env params w)
                  = world_of (verifying env params wc)
                  /\ rest = io_events (trace_of (verifying env params wc))
              end)
  /\ (forall (c : string * string) (w1 wa : W) (t1 : list event) (err : exn),
         type params = "put" \/ type params = "get" ->
         comparing env params w = (Return c, w1, t1) ->
         needs_transfer params c = true ->
         scp_enter env w1 = (Some err, wa) ->
         outcome (main env params w) = Raise err
         /\ world_of (main env params w) = wa
         /\ io_events (trace_of (main env params w))
            = (io_events t1 ++ [ScpEnter (Some err)])%list).
Proof.
  pose proof (well_scoped_main params w) as Hs.
  split; [exact Hs|]. split; [|split].
  - intros pre post e Ht He. rewrite Ht in Hs.
    destruct (scoped_copy_bracketed e post He pre Idle Hs)
      as ([(Habs & _)|(pre' & Hpre)] & r & post' & Hpost); [discriminate|].
    now exists pre', r, post'.
  - intros c w1 wa wb wc t1 r1 r2 Hty Hc Hn Hen Hcp Hex.
    pose proof (transfer_run env params w1) as Htr.
    rewrite Hen in Htr. cbv beta iota in Htr.
    rewrite Hcp, Hex in Htr.
    assert (Hio : io_events [ScpEnter None; copy_event params r1; ScpExit r2]
                  = [ScpEnter None; copy_event params r1; ScpExit r2]).
    { unfold copy_event. now destruct (type params =? "put"). }
    destruct r2 as [e2|]; [|destruct r1 as [e1|]].
    + destruct (main_transfer_raises env params _ _ _ _ _ _ _ Hty Hc Hn Htr)
        as (Ho & Hw & Ht).
      exists []. rewrite Ht, Hio. now repeat split.
    + destruct (main_transfer_raises env params _ _ _ _ _ _ _ Hty Hc Hn Htr)
        as (Ho & Hw & Ht).
      exists []. rewrite Ht, Hio. now repeat split.
    + destruct (verifying env params wc) as [[v w3] t3] eqn:Hv.
      destruct (main_verifies env params _ _ _ _ _ _ _ _ _ Hty Hc Hn Htr Hv)
        as (Ho & Hw & Ht).
      exists (io_events t3). rewrite Ht, Hio. now repeat split.
  - intros c w1 wa t1 err Hty Hc Hn Hen.
    pose proof (transfer_run env params w1) as Htr.
    rewrite Hen in Htr. cbv beta iota in Htr.
    destruct (main_transfer_raises env params _ _ _ _ _ _ _ Hty Hc Hn Htr)
      as (Ho & Hw & Ht).
    now repeat split.
Qed.

End Scoped.

(* ===================================================================== *)
(** * Absent files *)
(* ===================================================================== *)

(** The text of the error [open] raises for a missing file holds the
    marker [local_md5] looks for. *)
Lemma missing_file_text (path : string) :
  contains "No such file"
    (format (IOError ENOENT "No such file or directory" path)) = true.
Proof.
  change (format (IOError ENOENT "No such file or directory" path))
    with ("[Errno 2] " ++ "No such file" ++ " or directory: '" ++ path ++ "'").
  apply contains_middle.
Qed.

Section Absent.

Context {W : Type} (env : Env W).

(** C3, as the code has it.  A failed checksum computation gives the
    sentinel ["no_file"] exactly when the text of the error holds the marker
    (["No such file"] in [format(err)] for the local file,
    ["No such file or directory"] in [err.message] for the remote file) and
    the direction makes that side the destination ([get] for the local
    file, [put] for the remote file).  The errors a missing file produces
    hold the marker.  Every other failure is raised again. *)
Theorem absent_sentinel_follows_error_text
    (params : Params) (path : string) (w : W) :
  (forall (err : exn) (w1 : W),
      open_rb env path w = (inl err, w1) ->
      outcome (local_md5 env params path w)
      = if contains "No such file" (format err) && (type params =? "get")
        then Return "no_file" else Raise err)
  /\ (forall (err : exn) (message : string) (w1 : W),
         get_checksum_information env path w = (inl err, w1) ->
         exc_message err = Some message ->
         outcome (remote_md5 env params path w)
         = if contains "No such file or directory" message
              && (type params =? "put")
           then Return "no_file" else Raise err)
  /\ (forall (err : exn) (w1 : W),
         get_checksum_information env path w = (inl err, w1) ->
         exc_message err = None ->
         outcome (remote_md5 env params path w) = Raise (no_message err))
  /\ (forall (w1 : W),
         open_rb env path w
         = (inl (IOError ENOENT "No such file or directory" path), w1) ->
         outcome (local_md5 env params path w)
         = if type params =? "get" then Return "no_file"
           else Raise (IOError ENOENT "No such file or directory" path))
  /\ (forall (reason : string) (w1 : W),
         get_checksum_information env path w
         = (inl (RpcError (reason ++ "No such file or directory")), w1) ->
         outcome (remote_md5 env params path w)
         = if type params =? "put" then Return "no_file"
           else Raise (RpcError (reason ++ "No such file or directory"))).
Proof.
  split; [|split; [|split; [|split]]].
  - intros err w1 Ho. now rewrite local_md5_run, Ho.
  - intros err message w1 Hr Hm. now rewrite remote_md5_run, Hr, Hm.
  - intros err w1 Hr Hm. now rewrite remote_md5_run, Hr, Hm.
  - intros w1 Ho. now rewrite local_md5_run, Ho, missing_file_text.
  - intros reason w1 Hr. rewrite remote_md5_run, Hr.
    cbn [exc_message RpcError outcome fst].
    now rewrite contains_end.
Qed.

End Absent.

(** C3 as the specification words it does not hold: an error that is not a
    missing file (permission denied, errno 13) on a path whose name holds
    the marker is taken for an absent file in direction [get], and is not
    raised. *)
Lemma permission_denied_is_taken_for_absent :
  ~ (forall (W : Type) (env : Env W) (params : Params) (path : string)
            (w w1 : W) (err : exn),
        open_rb env path w = (inl err, w1) ->
        missing_file err = false ->
        outcome (local_md5 env params path w) = Raise err).
Proof.
  intros Hclaim.
  specialize (Hclaim site site_env guarded_params
                (local_file_of guarded_params) guarded_site guarded_site
                (IOError EACCES "Permission denied" "/srv/No such file/a.tgz")
                eq_refl eq_refl).
  vm_compute in Hclaim. discriminate Hclaim.
Qed.

(* ===================================================================== *)
(** * The sentinel and the source *)
(* ===================================================================== *)

Section Sentinel.

Context {W : Type} (env : Env W).

(** In an upload, a local checksum that was obtained is an MD5 digest. *)
Lemma put_local_checksum_is_digest (params : Params) (package c : string)
    (w w1 : W) (t : list event) :
  type params = "put" ->
  local_md5 env params package w = (Return c, w1, t) ->
  is_hexdigest c = true.
Proof.
  intros Hty. rewrite local_md5_run, Hty.
  destruct (open_rb env package w) as [[err|afile] w'].
  - rewrite andb_false_r. discriminate.
  - intros E. inversion E. apply md5_is_hexdigest.
Qed.

(** In a download, a remote checksum that was obtained is what the device
    reported, never the sentinel put in place of an error. *)
Lemma get_remote_checksum_is_reply (params : Params) (remote_file c : string)
    (w w1 : W) (t : list event) :
  type params = "get" ->
  remote_md5 env params remote_file w = (Return c, w1, t) ->
  exists text,
    get_checksum_information env remote_file w = (inr (Some text), w1)
    /\ c = strip text.
Proof.
  intros Hty. rewrite remote_md5_run, Hty.
  destruct (get_checksum_information env remote_file w) as [[err|[text|]] w'].
  - destruct (exc_message err); [rewrite andb_false_r|]; discriminate.
  - intros E. inversion E. now exists text.
  - discriminate.
Qed.

Lemma comparing_put (params : Params) (w w2 : W) (t : list event)
    (c : string * string) :
  type params = "put" ->
  comparing env params w = (Return c, w2, t) ->
  exists w1 t1 t2,
    local_md5 env params (local_file_of params) w = (Return (fst c), w1, t1)
    /\ remote_md5 env params (remote_file_of params) w1
       = (Return (snd c), w2, t2).
Proof.
  intros Hty. unfold comparing, bind, ret. rewrite Hty.
  cbn [String.eqb Ascii.eqb Bool.eqb]. cbv iota.
  destruct (local_md5 env params _ w) as [[[lc| | |] w1] t1] eqn:Hl;
    try discriminate.
  destruct (remote_md5 env params _ w1) as [[[rc| | |] w2'] t2] eqn:Hr;
    try discriminate.
  intros E. inversion E. subst. now exists w1, t1, t2.
Qed.

Lemma comparing_get (params : Params) (w w2 : W) (t : list event)
    (c : string * string) :
  type params = "get" ->
  comparing env params w = (Return c, w2, t) ->
  exists w1 t1 t2,
    remote_md5 env params (remote_file_of params) w = (Return (snd c), w1, t1)
    /\ local_md5 env params (local_file_of params) w1
       = (Return (fst c), w2, t2).
Proof.
  intros Hty. unfold comparing, bind, ret. rewrite Hty.
  cbn [String.eqb Ascii.eqb Bool.eqb]. cbv iota.
  destruct (remote_md5 env params _ w) as [[[rc| | |] w1] t1] eqn:Hr;
    try discriminate.
  destruct (local_md5 env params _ w1) as [[[lc| | |] w2'] t2] eqn:Hl;
    try discriminate.
  intros E. inversion E. subst. now exists w1, t1, t2.
Qed.

(** C10.  The module never gives the source the sentinel ["no_file"].  In
    direction [put] the checksum of the source is an MD5 digest, and a
    local file that cannot be opened makes [local_md5] raise.  In direction
    [get] a failed RPC makes [remote_md5] raise, and the checksum of the
    source is the text the device replied, stripped: it is the sentinel
    only when the device itself replies these very letters, never when the
    device reports digests.  And whatever the device reports, a run that
    attempts no transfer has found the destination present with the
    checksum of the source: the sentinel never passes for a match. *)
Theorem source_checksum_is_never_the_sentinel (params : Params) (w : W) :
  type params = "put" \/ type params = "get" ->
  (type params = "put" ->
   forall (c : string * string) (w1 : W) (t1 : list event),
     comparing env params w = (Return c, w1, t1) ->
     is_hexdigest (source_checksum params c) = true
     /\ source_checksum params c <> "no_file")
  /\ (type params = "get" ->
      forall (c : string * string) (w1 : W) (t1 : list event),
        comparing env params w = (Return c, w1, t1) ->
        exists (text : string) (wa : W),
          get_checksum_information env (remote_file_of params) w
          = (inr (Some text), wa)
          /\ source_checksum params c = strip text)
  /\ (device_replies_digests env ->
      forall (c : string * string) (w1 : W) (t1 : list event),
        comparing env params w = (Return c, w1, t1) ->
        source_checksum params c <> "no_file")
  /\ (type params = "put" ->
      forall (err : exn) (w1 : W),
        open_rb env (local_file_of params) w = (inl err, w1) ->
        outcome (local_md5 env params (local_file_of params) w) = Raise err)
  /\ (type params = "get" ->
      forall (err : exn) (w1 : W),
        get_checksum_information env (remote_file_of params) w = (inl err, w1) ->
        exists err',
          outcome (remote_md5 env params (remote_file_of params) w) = Raise err')
  /\ (forall (c : string * string) (w1 : W) (t1 : list event),
         comparing env params w = (Return c, w1, t1) ->
         attempts (trace_of (main env params w)) = 0 ->
         destination_checksum params c <> "no_file"
         /\ source_checksum params c <> "no_file"
         /\ destination_checksum params c = source_checksum params c).
Proof.
  intros Hty.
  assert (Hput : type params = "put" ->
                 forall c w1 t1,
                   comparing env params w = (Return c, w1, t1) ->
                   is_hexdigest (source_checksum params c) = true).
  { intros Hp c w1 t1 Hc. unfold source_checksum.
    destruct (comparing_put params _ _ _ _ Hp Hc) as (wa & ta & tb & Hl & _).
    rewrite Hp. cbn [String.eqb Ascii.eqb Bool.eqb]. cbv iota.
    now apply (put_local_checksum_is_digest params _ _ _ _ _ Hp Hl). }
  assert (Hget : type params = "get" ->
                 forall c w1 t1,
                   comparing env params w = (Return c, w1, t1) ->
                   exists text wa,
                     get_checksum_information env (remote_file_of params) w
                     = (inr (Some text), wa)
                     /\ source_checksum params c = strip text).
  { intros Hg c w1 t1 Hc. unfold source_checksum.
    destruct (comparing_get params _ _ _ _ Hg Hc) as (wa & ta & tb & Hr & _).
    rewrite Hg. cbn [String.eqb Ascii.eqb Bool.eqb]. cbv iota.
    destruct (get_remote_checksum_is_reply params _ _ _ _ _ Hg Hr)
      as (text & Hrpc & ->).
    now exists text, wa. }
  split.
  { intros Hp c w1 t1 Hc. split; [now apply (Hput Hp c w1 t1)|].
    apply is_hexdigest_not_sentinel. now apply (Hput Hp c w1 t1). }
  split; [exact Hget|].
  split.
  { intros Hdev c w1 t1 Hc. apply is_hexdigest_not_sentinel.
    destruct Hty as [Hp|Hg]; [now apply (Hput Hp c w1 t1)|].
    destruct (Hget Hg c w1 t1 Hc) as (text & wa & Hrpc & ->).
    now apply (Hdev _ _ _ _ Hrpc). }
  split; [|split].
  - intros Hput' err w1 Ho. rewrite local_md5_run, Ho, Hput'.
    now rewrite andb_false_r.
  - intros Hget' err w1 Hr. rewrite remote_md5_run, Hr, Hget'.
    destruct (exc_message err); [rewrite andb_false_r|];
      cbn [outcome fst]; eauto.
  - intros c w1 t1 Hc Hatt.
    destruct (main_attempts env params w w1 t1 c Hty Hc) as (Ha & _).
    pose proof (needs_transfer_iff params c Hty) as Hn.
    destruct (needs_transfer params c); [lia|].
    assert (Hpres : destination_checksum params c <> "no_file").
    { intros Habs. assert (false = true) by (apply Hn; now left). discriminate. }
    assert (Heq : destination_checksum params c = source_checksum params c).
    { destruct (string_dec (destination_checksum params c)
                           (source_checksum params c)) as [E|N]; [exact E|].
      assert (false = true) by (apply Hn; now right). discriminate. }
    split; [exact Hpres|]. split; [|exact Heq]. now rewrite <- Heq.
Qed.

End Sentinel.

(** C10 as the specification words it does not hold: in direction [get]
    the checksum of the source is whatever text the device replies, so a
    device that replies the letters of the sentinel makes the checksum of
    the source the sentinel at the point of decision. *)
Lemma device_reply_can_be_the_sentinel :
  ~ (forall (W : Type) (env : Env W) (params : Params) (w w1 : W)
            (c : string * string) (t1 : list event),
        type params = "put" \/ type params = "get" ->
        comparing env params w = (Return c, w1, t1) ->
        source_checksum params c <> "no_file").
Proof.
  intros Hclaim.
  apply (Hclaim site sentinel_env get_params in_sync in_sync
           (MD5.md5 package, "no_file")
           (trace_of (comparing sentinel_env get_params in_sync))
           (or_intror eq_refl)
           ltac:(vm_compute; reflexivity)).
  reflexivity.
Qed.

(* ===================================================================== *)
(** * Running twice *)
(* ===================================================================== *)

Section Twice.

Context {W : Type} (env : Env W).

Lemma comparing_outcome (params : Params) (w : W) :
  (exists c, outcome (comparing env params w) = Return c)
  \/ (exists err, outcome (comparing env params w) = Raise err).
Proof.
  unfold comparing, bind, ret. destruct (type params =? "put").
  - destruct (local_md5_outcome env params (local_file_of params) w)
      as [[lc Hl]|[err Hl]];
      destruct (local_md5 env params _ w) as [[r w1] t1];
      cbn [outcome fst] in Hl; subst r; [|right; now exists err].
    destruct (remote_md5_outcome env params (remote_file_of params) w1)
      as [[rc Hr]|[err Hr]];
      destruct (remote_md5 env params _ w1) as [[r w2] t2];
      cbn [outcome fst] in Hr; subst r; cbn [outcome fst]; eauto.
  - destruct (remote_md5_outcome env params (remote_file_of params) w)
      as [[rc Hr]|[err Hr]];
      destruct (remote_md5 env params _ w) as [[r w1] t1];
      cbn [outcome fst] in Hr; subst r; [|right; now exists err].
    destruct (local_md5_outcome env params (local_file_of params) w1)
      as [[lc Hl]|[err Hl]];
      destruct (local_md5 env params _ w1) as [[r w2] t2];
      cbn [outcome fst] in Hl; subst r; cbn [outcome fst]; eauto.
Qed.

(** What [local_md5] returns depends on the world only through the answer
    of [open]. *)
Lemma local_md5_same_answer (params : Params) (package : string) (w w' : W) :
  fst (open_rb env package w') = fst (open_rb env package w) ->
  outcome (local_md5 env params package w')
  = outcome (local_md5 env params package w).
Proof.
  rewrite !local_md5_run.
  destruct (open_rb env package w') as [r' w1'].
  destruct (open_rb env package w) as [r w1]. cbn [fst].
  intros ->. now destruct r.
Qed.

Hypothesis Hq : undisturbed env.

Lemma local_md5_reads (params : Params) (package : string) (w : W) :
  world_of (local_md5 env params package w) = w.
Proof.
  rewrite local_md5_run. pose proof (open_reads env Hq package w) as Hw.
  now destruct (open_rb env package w) as [[err|afile] w1].
Qed.

Lemma remote_md5_reads (params : Params) (remote_file : string) (w : W) :
  world_of (remote_md5 env params remote_file w) = w.
Proof.
  rewrite remote_md5_run.
  pose proof (rpc_reads env Hq remote_file w) as Hw.
  destruct (get_checksum_information env remote_file w) as [[err|[text|]] w1];
    try exact Hw.
  now destruct (exc_message err).
Qed.

Lemma upload_keeps_local (params : Params) (path : string) (w : W) :
  type params = "put" ->
  fst (open_rb env path (world_of (transfer env params w)))
  = fst (open_rb env path w).
Proof.
  intros Hty. rewrite transfer_run, Hty.
  cbn [String.eqb Ascii.eqb Bool.eqb]. cbv iota.
  pose proof (enter_keeps_local env Hq path w) as He.
  destruct (scp_enter env w) as [[err|] w1]; cbn [snd] in He; [exact He|].
  pose proof (put_keeps_local env Hq (local_file_of params) (remote_dir params)
                path w1) as Hp.
  destruct (scp_put env _ _ w1) as [r1 w2]. cbn [snd] in Hp.
  pose proof (exit_keeps_local env Hq path w2) as Hx.
  destruct (scp_exit env w2) as [r2 w3]. cbn [snd] in Hx.
  cbn [world_of fst snd]. congruence.
Qed.


End Twice.

(* ===================================================================== *)
(** * The reference environment *)
(* ===================================================================== *)

Lemma hex_char_not_space (c : ascii) :
  is_hex_char c = true -> is_space c = false.
Proof.
  destruct c as [[] [] [] [] [] [] [] []]; vm_compute;
    intros E; first [discriminate E | reflexivity].
Qed.

Lemma lstrip_digest (s rest : string) :
  is_hexdigest s = true -> lstrip (s ++ rest) = s ++ rest.
Proof.
  unfold is_hexdigest. destruct s as [|c s]; [discriminate|].
  cbn [all_chars]. intros E.
  apply andb_true_iff in E as (_ & E). apply andb_true_iff in E as (Hc & _).
  cbn [append lstrip]. now rewrite (hex_char_not_space c Hc).
Qed.

Lemma rstrip_newline (s : string) :
  all_chars is_hex_char s = true -> rstrip (s ++ newline) = s.
Proof.
  induction s as [|c s IH]; [reflexivity|].
  cbn [all_chars append rstrip]. intros E.
  apply andb_true_iff in E as (Hc & Hs).
  rewrite (IH Hs). destruct s; [|reflexivity].
  now rewrite (hex_char_not_space c Hc).
Qed.

(** [strip] takes the line breaks around the digest off the reply. *)
Lemma strip_reply (s : string) :
  is_hexdigest s = true -> strip (newline ++ s ++ newline) = s.
Proof.
  intros Hs. unfold strip.
  change (lstrip (newline ++ s ++ newline)) with (lstrip (s ++ newline)).
  rewrite (lstrip_digest s newline Hs). apply rstrip_newline.
  unfold is_hexdigest in Hs. now apply andb_true_iff in Hs.
Qed.

Lemma site_replies_digests : device_replies_digests site_env.
Proof.
  intros path text w w1. cbn [get_checksum_information site_env].
  unfold site_rpc. destruct (lookup path (device w)) as [content|];
    [|discriminate].
  intros E.
  assert (Ht : text = newline ++ MD5.md5 content ++ newline) by congruence.
  rewrite Ht, strip_reply by apply md5_is_hexdigest.
  apply md5_is_hexdigest.
Qed.

Lemma site_undisturbed : undisturbed site_env.
Proof.
  split; cbn [open_rb get_checksum_information scp_enter scp_put scp_exit
              site_env fst snd].
  - intros path w. unfold site_open.
    now destruct (lookup path (controller w)) as [[content|]|].
  - intros path w. unfold site_rpc.
    now destruct (lookup path (device w)).
  - reflexivity.
  - intros local_file remote_path path w. unfold site_put.
    destruct (scp_link w);
      destruct (lookup local_file (controller w)) as [[content|]|];
      unfold site_open; cbn [snd controller];
      now destruct (lookup path (controller w)) as [[content'|]|].
  - reflexivity.
Qed.

(* ===================================================================== *)
(** * Runs of the module in the reference environment *)
(* ===================================================================== *)

Example first_put_run :
  outcome (main site_env put_params (controller_only Faithful))
  = ExitJson (mkResults "File pushed OK" true false).
Proof. vm_compute. reflexivity. Qed.

Example second_put_run :
  outcome (main site_env put_params in_sync)
  = ExitJson (mkResults "File already present, skipping the scp" false false).
Proof. vm_compute. reflexivity. Qed.

Example first_get_run :
  outcome (main site_env get_params (device_only Faithful))
  = ExitJson (mkResults "File retrieved OK" true false).
Proof. vm_compute. reflexivity. Qed.

Example truncated_put_run :
  outcome (main site_env put_params (controller_only Truncating))
  = FailJson
      "Transfer failed (different MD5 between local and remote) 1789c645d3106928a3358d060bcb8ad0 | 502322886bb53d255652a1d73f342a8d".
Proof. vm_compute. reflexivity. Qed.

(** Scenario C: a download whose source is missing on the device fails. *)
Example get_without_source_run :
  outcome (main site_env get_params (controller_only Faithful))
  = Raise (RpcError "md5: /var/tmp/pkg.tgz: No such file or directory").
Proof. vm_compute. reflexivity. Qed.

Example put_without_source_run :
  outcome (main site_env put_params (device_only Faithful))
  = Raise (IOError ENOENT "No such file or directory" "/srv/images/pkg.tgz").
Proof. vm_compute. reflexivity. Qed.

Example broken_link_run :
  io_events (trace_of (main site_env put_params (controller_only Failing)))
  = [Open "/srv/images/pkg.tgz" (inr package);
     Rpc "/var/tmp/pkg.tgz"
         (inl (RpcError "md5: /var/tmp/pkg.tgz: No such file or directory"));
     ScpEnter None;
     ScpPut "/srv/images/pkg.tgz" "/var/tmp" (Some connection_lost);
     ScpExit None]
  /\ outcome (main site_env put_params (controller_only Failing))
     = Raise connection_lost.
Proof. vm_compute. split; reflexivity. Qed.

(* ===================================================================== *)
(** * The theorems at concrete inputs *)
(* ===================================================================== *)


Lemma mismatch_after_transfer_is_fatal_at_truncated_put :
  (type put_params = "put" \/ type put_params = "get")
  /\ comparing site_env put_params (controller_only Truncating)
     = (Return (MD5.md5 package, "no_file"), controller_only Truncating,
        trace_of (comparing site_env put_params (controller_only Truncating)))
  /\ 0 < attempts (trace_of (main site_env put_params
                                  (controller_only Truncating)))
  /\ transfer site_env put_params (controller_only Truncating)
     = (Return tt, after_transfer put_params (controller_only Truncating),
        trace_of (transfer site_env put_params (controller_only Truncating)))
  /\ verifying site_env put_params
       (after_transfer put_params (controller_only Truncating))
     = (Return (MD5.md5 (removelast package)),
        after_transfer put_params (controller_only Truncating),
        trace_of (verifying site_env put_params
                    (after_transfer put_params (controller_only Truncating))))
  /\ MD5.md5 (removelast package)
     <> source_checksum put_params (MD5.md5 package, "no_file")
  /\ outcome (main site_env put_params (controller_only Truncating))
     = FailJson (transfer_failed (MD5.md5 package)
                                 (MD5.md5 (removelast package))).
Proof.
  split; [now left|]. split; [vm_compute; reflexivity|].
  split; [vm_compute; lia|]. split; [vm_compute; reflexivity|].
  split; [vm_compute; reflexivity|].
  split; [vm_compute; intros E; discriminate E|].
  rewrite (proj1 (mismatch_after_transfer_is_fatal site_env put_params
                    (controller_only Truncating) (controller_only Truncating)
                    (after_transfer put_params (controller_only Truncating))
                    (after_transfer put_params (controller_only Truncating))
                    (trace_of (comparing site_env put_params
                                 (controller_only Truncating)))
                    (trace_of (transfer site_env put_params
                                 (controller_only Truncating)))
                    (trace_of (verifying site_env put_params
                                 (after_transfer put_params
                                    (controller_only Truncating))))
                    (MD5.md5 package, "no_file")
                    (MD5.md5 (removelast package))
                    (or_introl eq_refl)
                    ltac:(vm_compute; reflexivity)
                    ltac:(vm_compute; lia)
                    ltac:(vm_compute; reflexivity)
                    ltac:(vm_compute; reflexivity)
                    ltac:(vm_compute; intros E; discriminate E))).
  vm_compute. reflexivity.
Defined.


Lemma matching_digests_skip_at_in_sync :
  (type put_params = "put" \/ type put_params = "get")
  /\ comparing site_env put_params in_sync
     = (Return (MD5.md5 package, MD5.md5 package), in_sync,
        trace_of (comparing site_env put_params in_sync))
  /\ MD5.md5 package <> "no_file"
  /\ outcome (main site_env put_params in_sync)
     = ExitJson (mkResults "File already present, skipping the scp"
                           false false).
Proof.
  split; [now left|]. split; [vm_compute; reflexivity|].
  split; [vm_compute; intros E; discriminate E|].
  refine (proj1 (matching_digests_skip site_env put_params in_sync in_sync
                   (trace_of (comparing site_env put_params in_sync))
                   (MD5.md5 package) (or_introl eq_refl) _ _)).
  - vm_compute. reflexivity.
  - vm_compute. intros E. discriminate E.
Defined.

Lemma one_transfer_then_one_fresh_verification_at_first_get :
  (type get_params = "put" \/ type get_params = "get")
  /\ comparing site_env get_params (device_only Faithful)
     = (Return ("no_file", MD5.md5 package), device_only Faithful,
        trace_of (comparing site_env get_params (device_only Faithful)))
  /\ 0 < attempts (trace_of (main site_env get_params (device_only Faithful)))
  /\ transfer site_env get_params (device_only Faithful)
     = (Return tt, after_transfer get_params (device_only Faithful),
        trace_of (transfer site_env get_params (device_only Faithful)))
  /\ verifying site_env get_params
       (after_transfer get_params (device_only Faithful))
     = (Return (MD5.md5 package),
        after_transfer get_params (device_only Faithful),
        trace_of (verifying site_env get_params
                    (after_transfer get_params (device_only Faithful))))
  /\ io_events (trace_of (main site_env get_params (device_only Faithful)))
     = [Rpc "/var/tmp/pkg.tgz"
            (inr (Some (newline ++ MD5.md5 package ++ newline)));
        Open "/srv/images/pkg.tgz"
             (inl (IOError ENOENT "No such file or directory"
                           "/srv/images/pkg.tgz"));
        ScpEnter None;
        ScpGet "/var/tmp/pkg.tgz" "/srv/images/pkg.tgz" None;
        ScpExit None;
        Open "/srv/images/pkg.tgz" (inr package)].
Proof.
  split; [now right|]. split; [vm_compute; reflexivity|].
  split; [vm_compute; lia|]. split; [vm_compute; reflexivity|].
  split; [vm_compute; reflexivity|].
  rewrite (proj1 (one_transfer_then_one_fresh_verification site_env get_params
                    (device_only Faithful) (device_only Faithful)
                    (after_transfer get_params (device_only Faithful))
                    (after_transfer get_params (device_only Faithful))
                    (trace_of (comparing site_env get_params
                                 (device_only Faithful)))
                    (trace_of (transfer site_env get_params
                                 (device_only Faithful)))
                    (trace_of (verifying site_env get_params
                                 (after_transfer get_params
                                    (device_only Faithful))))
                    ("no_file", MD5.md5 package)
                    (Return (MD5.md5 package))
                    (or_intror eq_refl)
                    ltac:(vm_compute; reflexivity)
                    ltac:(vm_compute; lia)
                    ltac:(vm_compute; reflexivity)
                    ltac:(vm_compute; reflexivity))).
  vm_compute. reflexivity.
Defined.


Lemma source_checksum_is_never_the_sentinel_at_first_get :
  (type get_params = "put" \/ type get_params = "get")
  /\ device_replies_digests site_env
  /\ comparing site_env get_params (device_only Faithful)
     = (Return ("no_file", MD5.md5 package), device_only Faithful,
        trace_of (comparing site_env get_params (device_only Faithful)))
  /\ source_checksum get_params ("no_file", MD5.md5 package) <> "no_file".
Proof.
  split; [now right|]. split; [exact site_replies_digests|].
  split; [vm_compute; reflexivity|].
  apply (proj1 (proj2 (proj2 (source_checksum_is_never_the_sentinel site_env
                                get_params (device_only Faithful)
                                (or_intror eq_refl))))
           site_replies_digests
           ("no_file", MD5.md5 package) (device_only Faithful)
           (trace_of (comparing site_env get_params (device_only Faithful)))).
  vm_compute. reflexivity.
Defined.

Lemma absent_sentinel_follows_error_text_at_guarded_path :
  open_rb site_env (local_file_of guarded_params) guarded_site
  = (inl (IOError EACCES "Permission denied" "/srv/No such file/a.tgz"),
     guarded_site)
  /\ outcome (local_md5 site_env guarded_params (local_file_of guarded_params)
                guarded_site)
     = Return "no_file".
Proof.
  split; [reflexivity|].
  rewrite (proj1 (absent_sentinel_follows_error_text site_env guarded_params
                    (local_file_of guarded_params) guarded_site)
             (IOError EACCES "Permission denied" "/srv/No such file/a.tgz")
             guarded_site eq_refl).
  vm_compute. reflexivity.
Defined.

Lemma scp_session_is_scoped_at_broken_link :
  trace_of (main site_env put_params (controller_only Failing))
  = ((firstn 9 (trace_of (main site_env put_params (controller_only Failing))))
     ++ ScpPut "/srv/images/pkg.tgz" "/var/tmp" (Some connection_lost)
     :: [ScpExit None])%list
  /\ is_copy (ScpPut "/srv/images/pkg.tgz" "/var/tmp" (Some connection_lost))
     = true
  /\ (exists pre' r post',
        firstn 9 (trace_of (main site_env put_params (controller_only Failing)))
        = (pre' ++ [ScpEnter None])%list
        /\ [ScpExit None] = ScpExit r :: post')
  /\ scp_put site_env (local_file_of put_params) (remote_dir put_params)
       (controller_only Failing)
     = (Some connection_lost, controller_only Failing)
  /\ scp_exit site_env (controller_only Failing)
     = (None, controller_only Failing)
  /\ exists rest : list event,
       io_events (trace_of (main site_env put_params (controller_only Failing)))
       = (io_events (trace_of (comparing site_env put_params
                                 (controller_only Failing)))
          ++ [ScpEnter None; copy_event put_params (Some connection_lost);
              ScpExit None]
          ++ rest)%list
       /\ (outcome (main site_env put_params (controller_only Failing))
           = Raise connection_lost
           /\ world_of (main site_env put_params (controller_only Failing))
              = controller_only Failing
           /\ rest = []).
Proof.
  pose proof (scp_session_is_scoped site_env put_params
                (controller_only Failing)) as (_ & Hbracket & Hrelease & _).
  split; [vm_compute; reflexivity|]. split; [reflexivity|].
  split; [|split; [reflexivity|split; [reflexivity|]]].
  - apply (Hbracket
             (firstn 9 (trace_of (main site_env put_params
                                    (controller_only Failing))))
             [ScpExit None]
             (ScpPut "/srv/images/pkg.tgz" "/var/tmp" (Some connection_lost))).
    + vm_compute. reflexivity.
    + reflexivity.
  - exact (Hrelease (MD5.md5 package, "no_file")
             (controller_only Failing) (controller_only Failing)
             (controller_only Failing) (controller_only Failing)
             (trace_of (comparing site_env put_params
                          (controller_only Failing)))
             (Some connection_lost) None
             (or_introl eq_refl)
             ltac:(vm_compute; reflexivity)
             ltac:(vm_compute; reflexivity)
             eq_refl eq_refl eq_refl).
Defined.

(* ===================================================================== *)
(** * More on _hashfile *)
(* ===================================================================== *)

Section HashfileBlocksize.

Context {H : Type} `{HasherLaws H}.

(** X1.  For a hasher that keeps the contract of [hashlib] and a block
    size from one byte to one mebibyte, or [-1] (which reads the file in
    one piece), [_hashfile] returns the digest of the hasher fed with the
    whole file: the result does not depend on the block size, and a hasher
    that was fed before goes on from where it was. *)
Theorem hashfile_any_blocksize
    (afile : list byte) (hasher : H) (blocksize blocksize' : Z) :
  (0 < blocksize <= 1048576)%Z \/ blocksize = (-1)%Z ->
  (0 < blocksize' <= 1048576)%Z \/ blocksize' = (-1)%Z ->
  _hashfile afile hasher blocksize = hexdigest (update hasher afile)
  /\ _hashfile afile hasher blocksize = _hashfile afile hasher blocksize'
  /\ forall before : list byte,
       _hashfile afile (update hasher before) blocksize
       = hexdigest (update hasher (before ++ afile)%list).
Proof.
  intros Hr Hr'.
  assert (Hb : blocksize <> 0%Z) by lia.
  assert (Hb' : blocksize' <> 0%Z) by lia.
  split; [now apply hashfile_whole|]. split.
  - now rewrite !hashfile_whole.
  - intros before. now rewrite hashfile_whole, update_app.
Qed.

End HashfileBlocksize.

Section HashfileZero.

Context {H : Type} `{Hasher H}.

(** X2.  With block size zero the first read is empty, so [_hashfile]
    never calls [update]: it returns the digest of the hasher as it was
    given, whatever the file holds. *)
Theorem hashfile_blocksize_zero (afile : list byte) (hasher : H) :
  _hashfile afile hasher 0 = hexdigest hasher
  /\ update_calls afile 0 = [].
Proof.
  unfold _hashfile, update_calls, read.
  cbn [Z.ltb Z.compare Z.to_nat firstn skipn fst snd].
  now simp hash_while.
Qed.

End HashfileZero.

Lemma blocks_count (bs : nat) (Hbs : (0 < bs)%nat) :
  forall (n : nat) (data : list byte),
    (length data <= n)%nat ->
    (length data <= length (blocks bs data) * bs
     /\ length (blocks bs data) * bs < length data + bs)%nat.
Proof.
  induction n as [|n IH]; intros data Hn.
  - destruct data; [|cbn [length] in Hn; lia]. cbn. lia.
  - destruct data as [|b data]; [cbn; lia|].
    rewrite blocks_cons by exact Hbs.
    assert (Hl : (length (skipn bs (b :: data)) <= n)%nat).
    { rewrite length_skipn. cbn [length] in *. lia. }
    specialize (IH _ Hl). rewrite length_skipn in IH.
    cbn [length] in *.
    destruct (Nat.le_gt_cases (S (length data)) bs) as [Hle|Hgt].
    + replace (S (length data) - bs)%nat with 0%nat in IH by lia.
      assert (length (blocks bs (skipn bs (b :: data))) = 0)%nat by nia.
      nia.
    + nia.
Qed.

(** X3.  For every block size from one byte to one mebibyte the buffers
    [_hashfile] hands to [update] are the consecutive blocks of the file:
    none is empty, all but the last are exactly one block long, put end to
    end they are the file, and there are as many as the file's length
    divided by the block size, rounded up.  With the block size [-1] there
    is at most one buffer, the whole file. *)
Theorem hashfile_update_calls (afile : list byte) (blocksize : Z) :
  ((0 < blocksize <= 1048576)%Z ->
   concat (update_calls afile blocksize) = afile
   /\ Forall (fun b => 0 < length b <= Z.to_nat blocksize)%nat
             (update_calls afile blocksize)
   /\ Forall (fun b => length b = Z.to_nat blocksize)
             (removelast (update_calls afile blocksize))
   /\ (Z.of_nat (length afile)
       <= Z.of_nat (length (update_calls afile blocksize)) * blocksize
       < Z.of_nat (length afile) + blocksize)%Z)
  /\ update_calls afile (-1)
     = match afile with [] => [] | _ => [afile] end.
Proof.
  split.
  - intros (Hpos & _).
    assert (Hbs : (0 < Z.to_nat blocksize)%nat) by lia.
    assert (Hz : blocksize = Z.of_nat (Z.to_nat blocksize)) by lia.
    assert (Hcalls : update_calls afile blocksize
                     = blocks (Z.to_nat blocksize) afile).
    { rewrite Hz at 1. now apply update_calls_blocks. }
    destruct (blocks_shape _ Hbs _ afile (le_n _)) as (Hc & Hall & Hbut).
    destruct (blocks_count _ Hbs _ afile (le_n _)) as (Hlo & Hhi).
    rewrite Hcalls.
    split; [exact Hc|]. split; [exact Hall|]. split; [exact Hbut|]. nia.
  - unfold update_calls, read. cbn [Z.ltb Z.compare fst snd].
    destruct afile as [|b afile]; simp hash_while; [reflexivity|].
    unfold read. cbn [Z.ltb Z.compare fst snd]. now simp hash_while.
Qed.

(* ===================================================================== *)
(** * More on local_md5 and remote_md5 *)
(* ===================================================================== *)

Lemma lstrip_spaces (a s : string) :
  all_chars is_space a = true -> lstrip (a ++ s) = lstrip s.
Proof.
  induction a as [|c a IH]; [reflexivity|].
  cbn [all_chars append lstrip]. intros E.
  apply andb_true_iff in E as (Hc & Ha). rewrite Hc. now apply IH.
Qed.

Lemma rstrip_spaces (b : string) :
  all_chars is_space b = true -> rstrip b = "".
Proof.
  induction b as [|c b IH]; [reflexivity|].
  cbn [all_chars rstrip]. intros E.
  apply andb_true_iff in E as (Hc & Hb). now rewrite (IH Hb), Hc.
Qed.

Lemma rstrip_digits (s b : string) :
  all_chars is_hex_char s = true -> all_chars is_space b = true ->
  rstrip (s ++ b) = s.
Proof.
  intros Hs Hb. induction s as [|c s IH].
  - now apply rstrip_spaces.
  - cbn [all_chars] in Hs. apply andb_true_iff in Hs as (Hc & Hs).
    cbn [append rstrip]. rewrite (IH Hs). destruct s; [|reflexivity].
    now rewrite (hex_char_not_space c Hc).
Qed.

(** [strip] takes any white space around a digest off. *)
Lemma strip_padded_digest (a d b : string) :
  all_chars is_space a = true -> all_chars is_space b = true ->
  is_hexdigest d = true ->
  strip (a ++ d ++ b) = d.
Proof.
  intros Ha Hb Hd. unfold strip.
  rewrite (lstrip_spaces a _ Ha), (lstrip_digest d b Hd).
  apply rstrip_digits; [|exact Hb].
  unfold is_hexdigest in Hd. now apply andb_true_iff in Hd.
Qed.

Section Helpers.

Context {W : Type} (env : Env W).

(** X4.  When the local file can be opened, [local_md5] returns the MD5
    digest of its contents, 32 lowercase hexadecimal digits, whatever the
    direction; it opens the file once, contacts neither the device nor SCP,
    and leaves the world as [open] left it. *)
Theorem local_md5_of_readable_file
    (params : Params) (package_path : string) (afile : list byte) (w w1 : W) :
  open_rb env package_path w = (inr afile, w1) ->
  outcome (local_md5 env params package_path w) = Return (MD5.md5 afile)
  /\ is_hexdigest (MD5.md5 afile) = true
  /\ MD5.md5 afile <> "no_file"
  /\ world_of (local_md5 env params package_path w) = w1
  /\ io_events (trace_of (local_md5 env params package_path w))
     = [Open package_path (inr afile)].
Proof.
  intros Ho. rewrite local_md5_run, Ho.
  split; [reflexivity|]. split; [apply md5_is_hexdigest|].
  split; [apply is_hexdigest_not_sentinel, md5_is_hexdigest|].
  now split.
Qed.

(** X5.  When the device answers with an MD5 digest surrounded by any
    white space (blanks, tabs, line breaks), [remote_md5] returns exactly
    the digest, in both directions. *)
Theorem remote_md5_strips_reply
    (params : Params) (remote_path before digest after : string) (w w1 : W) :
  get_checksum_information env remote_path w
  = (inr (Some (before ++ digest ++ after)), w1) ->
  all_chars is_space before = true ->
  all_chars is_space after = true ->
  is_hexdigest digest = true ->
  outcome (remote_md5 env params remote_path w) = Return digest
  /\ world_of (remote_md5 env params remote_path w) = w1.
Proof.
  intros Hr Ha Hb Hd. rewrite remote_md5_run, Hr.
  cbn [outcome world_of fst snd].
  now rewrite (strip_padded_digest _ _ _ Ha Hb Hd).
Qed.

(** X6.  When the reply of the device holds no [checksum] element,
    [remote_md5] raises an [AttributeError] in both directions: the reply
    is never taken for an absent file, and the sentinel is not returned. *)
Theorem remote_md5_without_checksum_element
    (params : Params) (remote_path : string) (w w1 : W) :
  get_checksum_information env remote_path w = (inr None, w1) ->
  (exists err,
      outcome (remote_md5 env params remote_path w) = Raise err
      /\ exc_class err = "AttributeError")
  /\ outcome (remote_md5 env params remote_path w) <> Return "no_file"
  /\ world_of (remote_md5 env params remote_path w) = w1
  /\ io_events (trace_of (remote_md5 env params remote_path w))
     = [Rpc remote_path (inr None)].
Proof.
  intros Hr. rewrite remote_md5_run, Hr.
  split; [now exists NoneType_strip|]. split; [discriminate|]. now split.
Qed.

End Helpers.

(* ===================================================================== *)
(** * How runs of main end *)
(* ===================================================================== *)

Section Endings.

Context {W : Type} (env : Env W).

Lemma verifying_outcome (params : Params) (w : W) :
  (exists d, outcome (verifying env params w) = Return d)
  \/ (exists err, outcome (verifying env params w) = Raise err).
Proof.
  unfold verifying. destruct (type params =? "put");
    [apply remote_md5_outcome | apply local_md5_outcome].
Qed.

(** Every run is one of the four scenarios. *)
Lemma every_run_has_a_scenario (params : Params) (w : W) :
  scenario env params w.
Proof.
  destruct (comparing env params w) as [[rc w1] t1] eqn:Hc.
  destruct (comparing_outcome env params w) as [[c Hrc]|[err Hrc]];
    rewrite Hc in Hrc; cbn [outcome fst] in Hrc; subst rc;
    [|now apply (ComparingFailed env params w err w1 t1)].
  destruct (needs_transfer params c) eqn:Hn;
    [|now apply (AlreadyPresent env params w c w1 t1)].
  destruct (transfer env params w1) as [[rt w2] t2] eqn:Htr.
  destruct (transfer_outcome env params w1) as [Hrt|[err Hrt]];
    rewrite Htr in Hrt; cbn [outcome fst] in Hrt; subst rt;
    [|now apply (TransferFailed env params w c w1 w2 t1 t2 err)].
  destruct (verifying env params w2) as [[v w3] t3] eqn:Hv.
  apply (Transferred env params w c w1 w2 w3 t1 t2 t3 v); try assumption.
  pose proof (verifying_outcome params w2) as Ho. now rewrite Hv in Ho.
Qed.

(** X7.  In direction [put], when the local file cannot be opened, for
    any reason, [main] raises the error of [open] at once: the device is
    not asked for a checksum and no SCP session is opened. *)
Theorem put_unreadable_source_fails_first
    (params : Params) (w w1 : W) (err : exn) :
  type params = "put" ->
  open_rb env (local_file_of params) w = (inl err, w1) ->
  outcome (main env params w) = Raise err
  /\ world_of (main env params w) = w1
  /\ io_events (trace_of (main env params w))
     = [Open (local_file_of params) (inl err)]
  /\ attempts (trace_of (main env params w)) = 0.
Proof.
  intros Hty Ho.
  assert (Hc : comparing env params w
               = (Raise err, w1,
                  [Open (local_file_of params) (inl err);
                   Log ERROR ("unable to get the hash due to:" ++ format err)])).
  { unfold comparing, bind. rewrite Hty.
    cbn [String.eqb Ascii.eqb Bool.eqb]. cbv iota.
    rewrite local_md5_run, Ho, Hty. now rewrite andb_false_r. }
  destruct (main_comparing_fails env params _ _ _ _ (or_introl Hty) Hc)
    as (Hout & Hw & Ht).
  repeat split; try assumption.
  now rewrite <- attempts_io, Ht.
Qed.

(** X8.  In direction [get], when the checksum RPC fails, for any reason
    (a missing remote file included), [main] raises at once: the local
    file is not opened and no SCP session is opened.  The exception is the
    one of the RPC when it carries a [message]. *)
Theorem get_failed_rpc_fails_first
    (params : Params) (w w1 : W) (err : exn) :
  type params = "get" ->
  get_checksum_information env (remote_file_of params) w = (inl err, w1) ->
  outcome (main env params w)
  = Raise (match exc_message err with
           | Some _ => err
           | None => no_message err
           end)
  /\ world_of (main env params w) = w1
  /\ io_events (trace_of (main env params w))
     = [Rpc (remote_file_of params) (inl err)]
  /\ attempts (trace_of (main env params w)) = 0.
Proof.
  intros Hty Hr.
  assert (Hc : exists t1,
             comparing env params w
             = (Raise (match exc_message err with
                       | Some _ => err
                       | None => no_message err
                       end), w1, t1)
             /\ io_events t1 = [Rpc (remote_file_of params) (inl err)]).
  { unfold comparing, bind. rewrite Hty.
    cbn [String.eqb Ascii.eqb Bool.eqb]. cbv iota.
    rewrite remote_md5_run, Hr, Hty.
    destruct (exc_message err) as [message|]; [rewrite andb_false_r|]; eauto. }
  destruct Hc as (t1 & Hc & Hio).
  destruct (main_comparing_fails env params _ _ _ _ (or_intror Hty) Hc)
    as (Hout & Hw & Ht).
  rewrite Hio in Ht. repeat split; try assumption.
  now rewrite <- attempts_io, Ht.
Qed.


(** X10.  In both directions, a run that ends in [exit_json] reports
    [failed=false], and either it found the file present (no SCP session,
    [changed=false], the message of a Skip), or it made exactly one
    transfer, read the destination again, found the checksum of the source
    there, and reports [changed=true] with the message of its direction. *)
Theorem exit_json_is_skip_or_verified_transfer
    (params : Params) (w : W) (results : Results) :
  type params = "put" \/ type params = "get" ->
  outcome (main env params w) = ExitJson results ->
  failed results = false
  /\ ((results = mkResults skip_message false false
       /\ attempts (trace_of (main env params w)) = 0
       /\ copies (trace_of (main env params w)) = 0)
      \/ (results = mkResults (if type params =? "put" then "File pushed OK"
                               else "File retrieved OK") true false
          /\ attempts (trace_of (main env params w)) = 1
          /\ exists c w1 w2 w3 t1 t2 t3,
               comparing env params w = (Return c, w1, t1)
               /\ transfer env params w1 = (Return tt, w2, t2)
               /\ verifying env params w2
                  = (Return (source_checksum params c), w3, t3))).
Proof.
  intros Hty Hout.
  destruct (every_run_has_a_scenario params w)
    as [err w1 t1 Hc | c w1 t1 Hc Hn | c w1 w2 t1 t2 err Hc Hn Htr
        | c w1 w2 w3 t1 t2 t3 v Hc Hn Htr Hv Hvo].
  - destruct (main_comparing_fails env params _ _ _ _ Hty Hc) as (Ho & _).
    congruence.
  - destruct (main_skips env params _ _ _ _ Hty Hc Hn) as (Ho & _).
    destruct (main_attempts env params _ _ _ _ Hty Hc) as (Ha & Hcp).
    rewrite Hn in Ha, Hcp. rewrite Ho in Hout. inversion Hout.
    split; [reflexivity|]. left. repeat split; [exact Ha | lia].
  - destruct (main_transfer_raises env params _ _ _ _ _ _ _ Hty Hc Hn Htr)
      as (Ho & _). congruence.
  - destruct (main_verifies env params _ _ _ _ _ _ _ _ _ Hty Hc Hn Htr Hv)
      as (Ho & _).
    destruct (main_attempts env params _ _ _ _ Hty Hc) as (Ha & _).
    rewrite Hn in Ha. rewrite Ho in Hout.
    destruct Hvo as [(d & ->)|(err & ->)]; [|discriminate Hout].
    unfold verdict in Hout.
    destruct (negb (snd (recomputed params c d) =? fst (recomputed params c d)))
      eqn:E; [discriminate Hout|].
    inversion Hout. split; [reflexivity|]. right.
    split; [reflexivity|]. split; [exact Ha|].
    exists c, w1, w2, w3, t1, t2, t3.
    split; [exact Hc|]. split; [exact Htr|]. rewrite Hv.
    apply negb_false_iff, String.eqb_eq in E. revert E.
    unfold recomputed, source_checksum.
    destruct Hty as [-> | ->]; cbn [String.eqb Ascii.eqb Bool.eqb]; cbv iota;
      cbn [fst snd]; congruence.
Qed.

(** X11.  In both directions, [fail_json] is reached in one way only:
    after a transfer that completed, when the checksum of the destination
    read again differs from the checksum of the source; the message is the
    "Transfer failed" text with the local and the remote checksum.  Every
    other failure leaves [main] as an exception. *)
Theorem fail_json_only_on_mismatch
    (params : Params) (w : W) (message : string) :
  type params = "put" \/ type params = "get" ->
  outcome (main env params w) = FailJson message ->
  attempts (trace_of (main env params w)) = 1
  /\ exists c d w1 w2 w3 t1 t2 t3,
       comparing env params w = (Return c, w1, t1)
       /\ transfer env params w1 = (Return tt, w2, t2)
       /\ verifying env params w2 = (Return d, w3, t3)
       /\ d <> source_checksum params c
       /\ message = transfer_failed (fst (recomputed params c d))
                                    (snd (recomputed params c d)).
Proof.
  intros Hty Hout.
  destruct (every_run_has_a_scenario params w)
    as [err w1 t1 Hc | c w1 t1 Hc Hn | c w1 w2 t1 t2 err Hc Hn Htr
        | c w1 w2 w3 t1 t2 t3 v Hc Hn Htr Hv Hvo].
  - destruct (main_comparing_fails env params _ _ _ _ Hty Hc) as (Ho & _).
    congruence.
  - destruct (main_skips env params _ _ _ _ Hty Hc Hn) as (Ho & _).
    congruence.
  - destruct (main_transfer_raises env params _ _ _ _ _ _ _ Hty Hc Hn Htr)
      as (Ho & _). congruence.
  - destruct (main_verifies env params _ _ _ _ _ _ _ _ _ Hty Hc Hn Htr Hv)
      as (Ho & _).
    destruct (main_attempts env params _ _ _ _ Hty Hc) as (Ha & _).
    rewrite Hn in Ha. rewrite Ho in Hout.
    destruct Hvo as [(d & ->)|(err & ->)]; [|discriminate Hout].
    unfold verdict in Hout.
    destruct (negb (snd (recomputed params c d) =? fst (recomputed params c d)))
      eqn:E; [|discriminate Hout].
    inversion Hout. split; [exact Ha|].
    exists c, d, w1, w2, w3, t1, t2, t3.
    repeat split; try assumption.
    apply negb_true_iff, String.eqb_neq in E. revert E.
    unfold recomputed, source_checksum.
    destruct Hty as [-> | ->]; cbn [String.eqb Ascii.eqb Bool.eqb]; cbv iota;
      cbn [fst snd]; congruence.
Qed.

(** X12.  In direction [put], when the remote file is still reported
    missing after a copy that completed, [main] ends in [fail_json] with
    the local digest and ["no_file"] in the message: a copy that left
    nothing behind never counts as a success. *)
Theorem put_destination_still_absent_fails
    (params : Params) (w w1 w2 w3 : W) (t1 t2 : list event)
    (c : string * string) (err : exn) (message : string) :
  type params = "put" ->
  comparing env params w = (Return c, w1, t1) ->
  needs_transfer params c = true ->
  transfer env params w1 = (Return tt, w2, t2) ->
  get_checksum_information env (remote_file_of params) w2 = (inl err, w3) ->
  exc_message err = Some message ->
  contains "No such file or directory" message = true ->
  outcome (main env params w) = FailJson (transfer_failed (fst c) "no_file")
  /\ is_hexdigest (fst c) = true
  /\ world_of (main env params w) = w3.
Proof.
  intros Hty Hc Hn Htr Hr Hm Hmark.
  assert (Hv : verifying env params w2
               = (Return "no_file", w3,
                  [Rpc (remote_file_of params) (inl err);
                   Log ERROR ("unable to get rpc due to:" ++ message)])).
  { unfold verifying. rewrite Hty.
    cbn [String.eqb Ascii.eqb Bool.eqb]. cbv iota.
    now rewrite remote_md5_run, Hr, Hm, Hmark, Hty. }
  destruct (main_verifies env params _ _ _ _ _ _ _ _ _ (or_introl Hty)
              Hc Hn Htr Hv) as (Ho & Hw & _).
  destruct (comparing_put env params _ _ _ _ Hty Hc) as (wa & ta & tb & Hl & _).
  pose proof (put_local_checksum_is_digest env params _ _ _ _ _ Hty Hl) as Hd.
  split; [|now split].
  assert (E : ("no_file" =? fst c) = false).
  { apply String.eqb_neq. intros E. symmetry in E. revert E.
    now apply is_hexdigest_not_sentinel. }
  rewrite Ho. unfold verdict, recomputed. rewrite Hty.
  change ("put" =? "put") with true. cbv iota. cbn [fst snd].
  now rewrite E.
Qed.

(** X13.  When [main] is entered with a [type] that is neither ["put"]
    nor ["get"] (the argument spec refuses such a value before), neither
    branch runs: nothing is opened, asked or copied, and reading [status]
    raises [UnboundLocalError]. *)
Theorem other_type_does_nothing (params : Params) (w : W) :
  type params <> "put" -> type params <> "get" ->
  main env params w
  = (Raise UnboundLocalError_status, w,
     [Log INFO ("Starting the file transfer: " ++ file params)]).
Proof.
  intros Hp Hg. unfold main.
  rewrite (eqb_neq_false _ _ Hp), (eqb_neq_false _ _ Hg). reflexivity.
Qed.

End Endings.

(* ===================================================================== *)
(** * What a run touches *)
(* ===================================================================== *)

Section Confined.

Context {W : Type} (env : Env W) (P : event -> bool).












End Confined.



Section OwnEvents.

Context {W : Type} (env : Env W) (params : Params).





End OwnEvents.

(* ===================================================================== *)
(** * Runs one after the other *)
(* ===================================================================== *)

Section Sequences.

Context {W : Type} (env : Env W).

(** A digest the device reported is returned whatever the direction. *)
Lemma remote_md5_same_digest (params params' : Params) (remote_path d : string)
    (w : W) :
  outcome (remote_md5 env params remote_path w) = Return d ->
  d <> "no_file" ->
  outcome (remote_md5 env params' remote_path w) = Return d.
Proof.
  rewrite !remote_md5_run.
  destruct (get_checksum_information env remote_path w) as [[err|[text|]] w1];
    cbn [outcome fst]; try discriminate; [|trivial].
  destruct (exc_message err) as [message|]; cbn [outcome fst];
    [|discriminate].
  destruct (contains _ message && (type params =? "put"));
    [congruence | discriminate].
Qed.

(** What [remote_md5] returns depends on the world only through the answer
    of the device. *)
Lemma remote_md5_same_answer (params : Params) (remote_path : string)
    (w w' : W) :
  fst (get_checksum_information env remote_path w')
  = fst (get_checksum_information env remote_path w) ->
  outcome (remote_md5 env params remote_path w')
  = outcome (remote_md5 env params remote_path w).
Proof.
  rewrite !remote_md5_run.
  destruct (get_checksum_information env remote_path w') as [r' w1'].
  destruct (get_checksum_information env remote_path w) as [r w1]. cbn [fst].
  intros ->. destruct r as [err|[text|]]; try reflexivity.
  now destruct (exc_message err).
Qed.

Hypothesis Hq : undisturbed env.

(** After an upload that ended in [exit_json], the device holds a file
    with the digest of the local file, and the local file is as it was. *)
Lemma put_exit_leaves_digest (params : Params) (w : W) (results : Results) :
  type params = "put" ->
  outcome (main env params w) = ExitJson results ->
  exists d,
    is_hexdigest d = true
    /\ outcome (local_md5 env params (local_file_of params) w) = Return d
    /\ outcome (remote_md5 env params (remote_file_of params)
                  (world_of (main env params w))) = Return d
    /\ fst (open_rb env (local_file_of params) (world_of (main env params w)))
       = fst (open_rb env (local_file_of params) w).
Proof.
  intros Hty Hout.
  assert (Hty' : type params = "put" \/ type params = "get") by now left.
  assert (Hver : forall w', verifying env params w'
                            = remote_md5 env params (remote_file_of params) w').
  { intros w'. unfold verifying. now rewrite Hty. }
  destruct (every_run_has_a_scenario env params w)
    as [err w1 t1 Hc | c w1 t1 Hc Hn | c w1 w2 t1 t2 err Hc Hn Htr
        | c w1 w2 w3 t1 t2 t3 v Hc Hn Htr Hv Hvo].
  - destruct (main_comparing_fails env params _ _ _ _ Hty' Hc) as (Ho & _).
    congruence.
  - destruct (main_skips env params _ _ _ _ Hty' Hc Hn) as (_ & Hw & _).
    destruct (comparing_put env params _ _ _ _ Hty Hc)
      as (wa & ta & tb & Hl & Hr).
    pose proof (local_md5_reads env Hq params (local_file_of params) w) as E1.
    rewrite Hl in E1. cbn [world_of fst snd] in E1. rewrite E1 in *. clear E1.
    pose proof (remote_md5_reads env Hq params (remote_file_of params) w) as E2.
    rewrite Hr in E2. cbn [world_of fst snd] in E2. rewrite E2 in *. clear E2.
    exists (fst c). rewrite Hw, Hl, Hr. cbn [outcome fst].
    split; [now apply (put_local_checksum_is_digest env params _ _ _ _ _ Hty Hl)|].
    split; [reflexivity|]. split; [|reflexivity].
    revert Hn. unfold needs_transfer, destination_checksum. rewrite Hty.
    change ("put" =? "put") with true. cbv iota.
    intros Hn. apply orb_false_iff in Hn as (_ & Hn).
    apply negb_false_iff, String.eqb_eq in Hn. now rewrite Hn.
  - destruct (main_transfer_raises env params _ _ _ _ _ _ _ Hty' Hc Hn Htr)
      as (Ho & _). congruence.
  - destruct (main_verifies env params _ _ _ _ _ _ _ _ _ Hty' Hc Hn Htr Hv)
      as (Ho & Hw & _).
    destruct (comparing_put env params _ _ _ _ Hty Hc)
      as (wa & ta & tb & Hl & Hr).
    pose proof (local_md5_reads env Hq params (local_file_of params) w) as E1.
    rewrite Hl in E1. cbn [world_of fst snd] in E1. rewrite E1 in *. clear E1.
    pose proof (remote_md5_reads env Hq params (remote_file_of params) w) as E2.
    rewrite Hr in E2. cbn [world_of fst snd] in E2. rewrite E2 in *. clear E2.
    pose proof (remote_md5_reads env Hq params (remote_file_of params) w2) as E3.
    rewrite <- Hver, Hv in E3. cbn [world_of fst snd] in E3.
    rewrite Ho in Hout.
    destruct Hvo as [(d & ->)|(err & ->)]; [|discriminate Hout].
    unfold verdict, recomputed in Hout. rewrite Hty in Hout.
    change ("put" =? "put") with true in Hout. cbv iota in Hout.
    cbn [fst snd] in Hout.
    destruct (d =? fst c) eqn:E; cbn [negb] in Hout; [|discriminate Hout].
    apply String.eqb_eq in E. subst d.
    exists (fst c). rewrite Hw, E3, <- Hver, Hv, Hl. cbn [outcome fst].
    split; [now apply (put_local_checksum_is_digest env params _ _ _ _ _ Hty Hl)|].
    split; [reflexivity|]. split; [reflexivity|].
    pose proof (upload_keeps_local env Hq params (local_file_of params) w Hty)
      as Hk.
    now rewrite Htr in Hk.
Qed.

(** After a download that ended in [exit_json], the local file has the
    checksum the device reported when the run began. *)
Lemma get_exit_leaves_digest (params : Params) (w : W) (results : Results) :
  type params = "get" ->
  outcome (main env params w) = ExitJson results ->
  exists d,
    outcome (remote_md5 env params (remote_file_of params) w) = Return d
    /\ outcome (local_md5 env params (local_file_of params)
                  (world_of (main env params w))) = Return d
    /\ (d = "no_file" -> attempts (trace_of (main env params w)) = 1).
Proof.
  intros Hty Hout.
  assert (Hty' : type params = "put" \/ type params = "get") by now right.
  assert (Hver : forall w', verifying env params w'
                            = local_md5 env params (local_file_of params) w').
  { intros w'. unfold verifying. now rewrite Hty. }
  destruct (every_run_has_a_scenario env params w)
    as [err w1 t1 Hc | c w1 t1 Hc Hn | c w1 w2 t1 t2 err Hc Hn Htr
        | c w1 w2 w3 t1 t2 t3 v Hc Hn Htr Hv Hvo].
  - destruct (main_comparing_fails env params _ _ _ _ Hty' Hc) as (Ho & _).
    congruence.
  - destruct (main_skips env params _ _ _ _ Hty' Hc Hn) as (_ & Hw & _).
    destruct (comparing_get env params _ _ _ _ Hty Hc)
      as (wa & ta & tb & Hr & Hl).
    pose proof (remote_md5_reads env Hq params (remote_file_of params) w) as E1.
    rewrite Hr in E1. cbn [world_of fst snd] in E1. rewrite E1 in *. clear E1.
    pose proof (local_md5_reads env Hq params (local_file_of params) w) as E2.
    rewrite Hl in E2. cbn [world_of fst snd] in E2. rewrite E2 in *. clear E2.
    revert Hn. unfold needs_transfer, destination_checksum. rewrite Hty.
    change ("get" =? "put") with false. cbv iota.
    intros Hn. apply orb_false_iff in Hn as (Hp & Hn).
    apply negb_false_iff, String.eqb_eq in Hn. apply String.eqb_neq in Hp.
    exists (snd c). rewrite Hw, Hl, Hr. cbn [outcome fst].
    split; [reflexivity|]. split; [now rewrite Hn|]. congruence.
  - destruct (main_transfer_raises env params _ _ _ _ _ _ _ Hty' Hc Hn Htr)
      as (Ho & _). congruence.
  - destruct (main_verifies env params _ _ _ _ _ _ _ _ _ Hty' Hc Hn Htr Hv)
      as (Ho & Hw & _).
    destruct (main_attempts env params _ _ _ _ Hty' Hc) as (Ha & _).
    rewrite Hn in Ha.
    destruct (comparing_get env params _ _ _ _ Hty Hc)
      as (wa & ta & tb & Hr & Hl).
    pose proof (local_md5_reads env Hq params (local_file_of params) w2) as E3.
    rewrite <- Hver, Hv in E3. cbn [world_of fst snd] in E3.
    rewrite Ho in Hout.
    destruct Hvo as [(d & ->)|(err & ->)]; [|discriminate Hout].
    unfold verdict, recomputed in Hout. rewrite Hty in Hout.
    change ("get" =? "put") with false in Hout. cbv iota in Hout.
    cbn [fst snd] in Hout.
    destruct (snd c =? d) eqn:E; cbn [negb] in Hout; [|discriminate Hout].
    apply String.eqb_eq in E. subst d.
    exists (snd c). rewrite Hw, E3, <- Hver, Hv, Hr. cbn [outcome fst].
    now repeat split.
Qed.

(** X15.  No intervening change.  After an upload that ended in
    [exit_json], whether it pushed the file or found it present, the next
    upload with the same parameters is a Skip: it opens no SCP session,
    copies nothing, and leaves the world as it is. *)
Theorem put_rerun_is_skip (params : Params) (w : W) (results : Results) :
  type params = "put" ->
  outcome (main env params w) = ExitJson results ->
  outcome (main env params (world_of (main env params w)))
  = ExitJson (mkResults skip_message false false)
  /\ attempts (trace_of (main env params (world_of (main env params w)))) = 0
  /\ copies (trace_of (main env params (world_of (main env params w)))) = 0
  /\ world_of (main env params (world_of (main env params w)))
     = world_of (main env params w).
Proof.
  intros Hty Hout.
  assert (Hty' : type params = "put" \/ type params = "get") by now left.
  destruct (put_exit_leaves_digest params w results Hty Hout)
    as (d & Hd & Hl & Hr & Hk).
  remember (world_of (main env params w)) as w' eqn:Ew.
  assert (Hc : exists t, comparing env params w' = (Return (d, d), w', t)).
  { unfold comparing, bind, ret. rewrite Hty.
    change ("put" =? "put") with true. cbv beta iota.
    pose proof (local_md5_same_answer env params (local_file_of params) w w' Hk)
      as Hs.
    pose proof (local_md5_reads env Hq params (local_file_of params) w') as Hlw.
    destruct (local_md5 env params (local_file_of params) w') as [[r1 wa] ta].
    rewrite Hl in Hs. cbn [outcome world_of fst snd] in Hs, Hlw. subst r1 wa.
    pose proof (remote_md5_reads env Hq params (remote_file_of params) w')
      as Hrw.
    destruct (remote_md5 env params (remote_file_of params) w')
      as [[r2 wb] tb].
    cbn [outcome world_of fst snd] in Hr, Hrw. subst r2 wb. eauto. }
  destruct Hc as (t & Hc).
  assert (Hn : needs_transfer params (d, d) = false).
  { unfold needs_transfer, destination_checksum.
    destruct (type params =? "put"); cbn [fst snd];
      now rewrite String.eqb_refl,
        (eqb_neq_false _ _ (is_hexdigest_not_sentinel _ Hd)). }
  destruct (main_skips env params _ _ _ _ Hty' Hc Hn) as (Ho2 & Hw2 & _).
  destruct (main_attempts env params _ _ _ _ Hty' Hc) as (Ha2 & Hcp2).
  rewrite Hn in Ha2, Hcp2.
  repeat split; try assumption; lia.
Qed.

(** X16.  No intervening change.  An upload that ended in [exit_json]
    followed by a download of the same remote file that ended in
    [exit_json] leaves, at the place the download wrote to, a file with
    the MD5 digest of the file that was uploaded. *)
Theorem put_then_get_keeps_digest
    (up down : Params) (w : W) (results results' : Results) :
  type up = "put" -> type down = "get" ->
  remote_file_of down = remote_file_of up ->
  outcome (main env up w) = ExitJson results ->
  outcome (main env down (world_of (main env up w))) = ExitJson results' ->
  exists d,
    is_hexdigest d = true
    /\ outcome (local_md5 env up (local_file_of up) w) = Return d
    /\ outcome (local_md5 env down (local_file_of down)
                  (world_of (main env down (world_of (main env up w)))))
       = Return d.
Proof.
  intros Hup Hdown Hsame Hout Hout'.
  destruct (put_exit_leaves_digest up w results Hup Hout)
    as (d & Hd & Hl & Hr & _).
  destruct (get_exit_leaves_digest down _ results' Hdown Hout')
    as (d' & Hr' & Hl' & _).
  exists d. split; [exact Hd|]. split; [exact Hl|].
  rewrite Hsame in Hr'.
  pose proof (remote_md5_same_digest up down _ _ _ Hr
                (is_hexdigest_not_sentinel _ Hd)) as E.
  rewrite Hr' in E. inversion E. now subst d'.
Qed.

Hypothesis Hdev : download_keeps_device env.
Hypothesis Hdig : device_replies_digests env.

Lemma download_keeps_remote (params : Params) (path : string) (w : W) :
  type params = "get" ->
  fst (get_checksum_information env path (world_of (transfer env params w)))
  = fst (get_checksum_information env path w).
Proof.
  intros Hty. rewrite transfer_run, Hty.
  change ("get" =? "put") with false. cbv iota.
  pose proof (enter_keeps_remote env Hdev path w) as He.
  destruct (scp_enter env w) as [[err|] w1]; cbn [snd] in He; [exact He|].
  pose proof (get_keeps_remote env Hdev (remote_file_of params)
                (local_file_of params) path w1) as Hp.
  destruct (scp_get env _ _ w1) as [r1 w2]. cbn [snd] in Hp.
  pose proof (exit_keeps_remote env Hdev path w2) as Hx.
  destruct (scp_exit env w2) as [r2 w3]. cbn [snd] in Hx.
  cbn [world_of fst snd]. congruence.
Qed.

(** X17.  No intervening change, a device that reports digests and that a
    download leaves as it is.  After a download that ended in
    [exit_json], whether it retrieved the file or found it present, the
    next download with the same parameters is a Skip: it opens no SCP
    session, copies nothing, and leaves the world as it is. *)
Theorem get_rerun_is_skip (params : Params) (w : W) (results : Results) :
  type params = "get" ->
  outcome (main env params w) = ExitJson results ->
  outcome (main env params (world_of (main env params w)))
  = ExitJson (mkResults skip_message false false)
  /\ attempts (trace_of (main env params (world_of (main env params w)))) = 0
  /\ copies (trace_of (main env params (world_of (main env params w)))) = 0
  /\ world_of (main env params (world_of (main env params w)))
     = world_of (main env params w).
Proof.
  intros Hty Hout.
  assert (Hty' : type params = "put" \/ type params = "get") by now right.
  destruct (get_exit_leaves_digest params w results Hty Hout)
    as (d & Hr & Hl & _).
  (* the checksum of the source is a digest *)
  assert (Hd : d <> "no_file").
  { apply is_hexdigest_not_sentinel.
    destruct (remote_md5 env params (remote_file_of params) w)
      as [[r wa] ta] eqn:E.
    cbn [outcome fst] in Hr. subst r.
    destruct (get_remote_checksum_is_reply env params _ _ _ _ _ Hty E)
      as (text & Hrpc & ->).
    now apply (Hdig _ _ _ _ Hrpc). }
  (* the device answers as before *)
  assert (Hk : fst (get_checksum_information env (remote_file_of params)
                      (world_of (main env params w)))
               = fst (get_checksum_information env (remote_file_of params) w)).
  { destruct (every_run_has_a_scenario env params w)
      as [err w1 t1 Hc | c w1 t1 Hc Hn | c w1 w2 t1 t2 err Hc Hn Htr
          | c w1 w2 w3 t1 t2 t3 v Hc Hn Htr Hv Hvo].
    - destruct (main_comparing_fails env params _ _ _ _ Hty' Hc) as (Ho & _).
      congruence.
    - destruct (main_skips env params _ _ _ _ Hty' Hc Hn) as (_ & Hw & _).
      destruct (comparing_get env params _ _ _ _ Hty Hc)
        as (wa & ta & tb & Hr1 & Hl1).
      pose proof (remote_md5_reads env Hq params (remote_file_of params) w)
        as E1.
      rewrite Hr1 in E1. cbn [world_of fst snd] in E1. rewrite E1 in *. clear E1.
      pose proof (local_md5_reads env Hq params (local_file_of params) w) as E2.
      rewrite Hl1 in E2. cbn [world_of fst snd] in E2. rewrite E2 in *. clear E2.
      now rewrite Hw.
    - destruct (main_transfer_raises env params _ _ _ _ _ _ _ Hty' Hc Hn Htr)
        as (Ho & _). congruence.
    - destruct (main_verifies env params _ _ _ _ _ _ _ _ _ Hty' Hc Hn Htr Hv)
        as (_ & Hw & _).
      destruct (comparing_get env params _ _ _ _ Hty Hc)
        as (wa & ta & tb & Hr1 & Hl1).
      pose proof (remote_md5_reads env Hq params (remote_file_of params) w)
        as E1.
      rewrite Hr1 in E1. cbn [world_of fst snd] in E1. rewrite E1 in *. clear E1.
      pose proof (local_md5_reads env Hq params (local_file_of params) w) as E2.
      rewrite Hl1 in E2. cbn [world_of fst snd] in E2. rewrite E2 in *. clear E2.
      pose proof (local_md5_reads env Hq params (local_file_of params) w2) as E3.
      assert (Hver : verifying env params w2
                     = local_md5 env params (local_file_of params) w2).
      { unfold verifying. now rewrite Hty. }
      rewrite <- Hver, Hv in E3. cbn [world_of fst snd] in E3. rewrite E3 in *. clear E3.
      rewrite Hw.
      pose proof (download_keeps_remote params (remote_file_of params) w Hty)
        as Hkr.
      now rewrite Htr in Hkr. }
  remember (world_of (main env params w)) as w' eqn:Ew.
  assert (Hc : exists t, comparing env params w' = (Return (d, d), w', t)).
  { unfold comparing, bind, ret. rewrite Hty.
    change ("get" =? "put") with false. cbv beta iota.
    pose proof (remote_md5_same_answer params (remote_file_of params) w w' Hk)
      as Hs.
    pose proof (remote_md5_reads env Hq params (remote_file_of params) w')
      as Hrw.
    destruct (remote_md5 env params (remote_file_of params) w')
      as [[r1 wa] ta].
    rewrite Hr in Hs. cbn [outcome world_of fst snd] in Hs, Hrw. subst r1 wa.
    pose proof (local_md5_reads env Hq params (local_file_of params) w') as Hlw.
    destruct (local_md5 env params (local_file_of params) w') as [[r2 wb] tb].
    cbn [outcome world_of fst snd] in Hl, Hlw. subst r2 wb. eauto. }
  destruct Hc as (t & Hc).
  assert (Hn : needs_transfer params (d, d) = false).
  { unfold needs_transfer, destination_checksum.
    destruct (type params =? "put"); cbn [fst snd];
      now rewrite String.eqb_refl, (eqb_neq_false _ _ Hd). }
  destruct (main_skips env params _ _ _ _ Hty' Hc Hn) as (Ho2 & Hw2 & _).
  destruct (main_attempts env params _ _ _ _ Hty' Hc) as (Ha2 & Hcp2).
  rewrite Hn in Ha2, Hcp2.
  repeat split; try assumption; lia.
Qed.

End Sequences.

(* ===================================================================== *)
(** * import_juniper_junos_common *)
(* ===================================================================== *)

(** X18.  With an import that does not touch [sys.path] itself:
    without [_module_utils_path] nothing is imported and [sys.path] stays
    as it is; with it, the module is looked up with that directory first,
    and [sys.path] is back to what it was exactly when the call returns:
    when the import raises, the exception goes on and the directory stays
    at the head of [sys.path]. *)
Theorem import_restores_sys_path_on_return {Mod : Type}
    (import_ : list string -> (exn + Mod) * list string)
    (sys_path : list string) :
  (forall path, snd (import_ path) = path) ->
  import_juniper_junos_common None import_ sys_path = (Return None, sys_path)
  /\ forall import_path : string,
       (forall m,
           fst (import_ (import_path :: sys_path)) = inr m ->
           import_juniper_junos_common (Some import_path) import_ sys_path
           = (Return (Some m), sys_path))
       /\ (forall err,
              fst (import_ (import_path :: sys_path)) = inl err ->
              import_juniper_junos_common (Some import_path) import_ sys_path
              = (Raise err, import_path :: sys_path))
       /\ (snd (import_juniper_junos_common (Some import_path) import_ sys_path)
           = sys_path
           <-> exists m,
                 fst (import_juniper_junos_common (Some import_path) import_
                        sys_path) = Return (Some m)).
Proof.
  intros Hkeep. split; [reflexivity|]. intros import_path.
  unfold import_juniper_junos_common.
  specialize (Hkeep (import_path :: sys_path)).
  destruct (import_ (import_path :: sys_path)) as [[err|m] path'].
  all: cbn [fst snd] in *; subst path'.
  - split; [discriminate|]. split; [intros e E; now inversion E|].
    split.
    + intros E. exfalso. revert import_path E. clear.
      induction sys_path as [|a l IH]; [discriminate|].
      intros import_path E. inversion E. now apply (IH a).
    + intros (m & E). discriminate E.
  - split; [intros m' E; now inversion E|]. split; [discriminate|].
    split; [intros _; now exists m | reflexivity].
Qed.

Lemma import_restores_sys_path_on_return_at_sample :
  (forall path, snd (sample_import path) = path)
  /\ import_juniper_junos_common (Some "/opt/module_utils") sample_import
       ["/usr/lib/python2.7"]
     = (Return (Some "juniper_junos_common"), ["/usr/lib/python2.7"])
  /\ import_juniper_junos_common (Some "/tmp") sample_import
       ["/usr/lib/python2.7"]
     = (Raise (Exn "ImportError" None "No module named juniper_junos_common"
                   (Some "No module named juniper_junos_common")),
        ["/tmp"; "/usr/lib/python2.7"]).
Proof.
  assert (Hkeep : forall path, snd (sample_import path) = path).
  { intros [|dir path]; [reflexivity|]. unfold sample_import.
    now destruct (dir =? "/opt/module_utils"). }
  split; [exact Hkeep|].
  split.
  - apply (proj1 (proj2 (import_restores_sys_path_on_return sample_import
                           ["/usr/lib/python2.7"] Hkeep)
                          "/opt/module_utils")).
    reflexivity.
  - apply (proj1 (proj2 (proj2 (import_restores_sys_path_on_return
                                  sample_import ["/usr/lib/python2.7"] Hkeep)
                                 "/tmp"))).
    reflexivity.
Defined.

(* ===================================================================== *)
(** * Further theorems at concrete inputs *)
(* ===================================================================== *)

Lemma site_downloads_keep_device : download_keeps_device site_env.
Proof.
  split; cbn [get_checksum_information scp_enter scp_get scp_exit site_env
              fst snd].
  - reflexivity.
  - intros remote_file local_file path w. unfold site_get.
    destruct (scp_link w); destruct (lookup remote_file (device w));
      unfold site_rpc; cbn [snd device];
      now destruct (lookup path (device w)).
  - reflexivity.
Qed.

Lemma hashfile_any_blocksize_at_package :
  ((0 < 4 <= 1048576)%Z \/ 4%Z = (-1)%Z)
  /\ ((0 < -1 <= 1048576)%Z \/ (-1)%Z = (-1)%Z)
  /\ _hashfile package MD5.new 4 = _hashfile package MD5.new (-1).
Proof.
  split; [left; lia|]. split; [now right|].
  apply (proj1 (proj2 (hashfile_any_blocksize package MD5.new 4 (-1)
                         ltac:(left; lia) ltac:(now right)))).
Defined.

Lemma hashfile_update_calls_at_package :
  (0 < 4 <= 1048576)%Z
  /\ concat (update_calls package 4) = package
  /\ update_calls package (-1) = [package].
Proof.
  split; [lia|].
  pose proof (hashfile_update_calls package 4) as (Hblocks & Hwhole).
  split; [exact (proj1 (Hblocks ltac:(lia))) | exact Hwhole].
Defined.

Lemma local_md5_of_readable_file_at_package :
  open_rb site_env "/srv/images/pkg.tgz" (controller_only Faithful)
  = (inr package, controller_only Faithful)
  /\ outcome (local_md5 site_env get_params "/srv/images/pkg.tgz"
                (controller_only Faithful))
     = Return (MD5.md5 package).
Proof.
  split; [reflexivity|].
  apply (proj1 (local_md5_of_readable_file site_env get_params
                  "/srv/images/pkg.tgz" package (controller_only Faithful)
                  (controller_only Faithful) eq_refl)).
Defined.

Lemma remote_md5_strips_reply_at_in_sync :
  get_checksum_information site_env "/var/tmp/pkg.tgz" in_sync
  = (inr (Some (newline ++ MD5.md5 package ++ newline)), in_sync)
  /\ all_chars is_space newline = true
  /\ is_hexdigest (MD5.md5 package) = true
  /\ outcome (remote_md5 site_env get_params "/var/tmp/pkg.tgz" in_sync)
     = Return (MD5.md5 package).
Proof.
  split; [reflexivity|]. split; [reflexivity|].
  split; [apply md5_is_hexdigest|].
  apply (proj1 (remote_md5_strips_reply site_env get_params "/var/tmp/pkg.tgz"
                  newline (MD5.md5 package) newline in_sync in_sync
                  eq_refl eq_refl eq_refl (md5_is_hexdigest package))).
Defined.

Lemma remote_md5_without_checksum_element_at_mute_device :
  get_checksum_information mute_env "/var/tmp/pkg.tgz" in_sync
  = (inr None, in_sync)
  /\ outcome (remote_md5 mute_env put_params "/var/tmp/pkg.tgz" in_sync)
     <> Return "no_file".
Proof.
  split; [reflexivity|].
  apply (proj1 (proj2 (remote_md5_without_checksum_element mute_env put_params
                         "/var/tmp/pkg.tgz" in_sync in_sync eq_refl))).
Defined.

Lemma put_unreadable_source_fails_first_at_missing_source :
  type put_params = "put"
  /\ open_rb site_env (local_file_of put_params) (device_only Faithful)
     = (inl (IOError ENOENT "No such file or directory" "/srv/images/pkg.tgz"),
        device_only Faithful)
  /\ outcome (main site_env put_params (device_only Faithful))
     = Raise (IOError ENOENT "No such file or directory" "/srv/images/pkg.tgz").
Proof.
  split; [reflexivity|]. split; [reflexivity|].
  apply (proj1 (put_unreadable_source_fails_first site_env put_params
                  (device_only Faithful) (device_only Faithful)
                  (IOError ENOENT "No such file or directory"
                           "/srv/images/pkg.tgz")
                  eq_refl eq_refl)).
Defined.

Lemma get_failed_rpc_fails_first_at_missing_source :
  type get_params = "get"
  /\ get_checksum_information site_env (remote_file_of get_params)
       (controller_only Faithful)
     = (inl (RpcError "md5: /var/tmp/pkg.tgz: No such file or directory"),
        controller_only Faithful)
  /\ outcome (main site_env get_params (controller_only Faithful))
     = Raise (RpcError "md5: /var/tmp/pkg.tgz: No such file or directory")
  /\ attempts (trace_of (main site_env get_params (controller_only Faithful)))
     = 0.
Proof.
  split; [reflexivity|]. split; [reflexivity|].
  pose proof (get_failed_rpc_fails_first site_env get_params
                (controller_only Faithful) (controller_only Faithful)
                (RpcError "md5: /var/tmp/pkg.tgz: No such file or directory")
                eq_refl eq_refl) as (Ho & _ & _ & Ha).
  split; [exact Ho | exact Ha].
Defined.


Lemma exit_json_is_skip_or_verified_transfer_at_first_get :
  (type get_params = "put" \/ type get_params = "get")
  /\ outcome (main site_env get_params (device_only Faithful))
     = ExitJson (mkResults "File retrieved OK" true false)
  /\ failed (mkResults "File retrieved OK" true false) = false.
Proof.
  split; [now right|]. split; [vm_compute; reflexivity|].
  refine (proj1 (exit_json_is_skip_or_verified_transfer site_env get_params
                   (device_only Faithful)
                   (mkResults "File retrieved OK" true false)
                   (or_intror eq_refl) _)).
  vm_compute. reflexivity.
Defined.

Lemma fail_json_only_on_mismatch_at_truncated_put :
  (type put_params = "put" \/ type put_params = "get")
  /\ outcome (main site_env put_params (controller_only Truncating))
     = FailJson
         "Transfer failed (different MD5 between local and remote) 1789c645d3106928a3358d060bcb8ad0 | 502322886bb53d255652a1d73f342a8d"
  /\ attempts (trace_of (main site_env put_params (controller_only Truncating)))
     = 1.
Proof.
  split; [now left|]. split; [vm_compute; reflexivity|].
  refine (proj1 (fail_json_only_on_mismatch site_env put_params
                   (controller_only Truncating)
                   "Transfer failed (different MD5 between local and remote) 1789c645d3106928a3358d060bcb8ad0 | 502322886bb53d255652a1d73f342a8d"
                   (or_introl eq_refl) _)).
  vm_compute. reflexivity.
Defined.

Lemma put_destination_still_absent_fails_at_nested_file :
  type nested_params = "put"
  /\ comparing site_env nested_params nested_site
     = (Return (MD5.md5 package, "no_file"), nested_site,
        trace_of (comparing site_env nested_params nested_site))
  /\ needs_transfer nested_params (MD5.md5 package, "no_file") = true
  /\ transfer site_env nested_params nested_site
     = (Return tt, after_transfer nested_params nested_site,
        trace_of (transfer site_env nested_params nested_site))
  /\ get_checksum_information site_env (remote_file_of nested_params)
       (after_transfer nested_params nested_site)
     = (inl (RpcError "md5: /var/tmp/sub/pkg.tgz: No such file or directory"),
        after_transfer nested_params nested_site)
  /\ lookup "/var/tmp/pkg.tgz"
       (device (after_transfer nested_params nested_site))
     = Some package
  /\ outcome (main site_env nested_params nested_site)
     = FailJson (transfer_failed (MD5.md5 package) "no_file").
Proof.
  split; [reflexivity|]. split; [vm_compute; reflexivity|].
  split; [vm_compute; reflexivity|]. split; [vm_compute; reflexivity|].
  split; [vm_compute; reflexivity|]. split; [vm_compute; reflexivity|].
  rewrite (proj1 (put_destination_still_absent_fails site_env nested_params
                    nested_site nested_site
                    (after_transfer nested_params nested_site)
                    (after_transfer nested_params nested_site)
                    (trace_of (comparing site_env nested_params nested_site))
                    (trace_of (transfer site_env nested_params nested_site))
                    (MD5.md5 package, "no_file")
                    (RpcError
                       "md5: /var/tmp/sub/pkg.tgz: No such file or directory")
                    "md5: /var/tmp/sub/pkg.tgz: No such file or directory"
                    eq_refl
                    ltac:(vm_compute; reflexivity)
                    ltac:(vm_compute; reflexivity)
                    ltac:(vm_compute; reflexivity)
                    ltac:(vm_compute; reflexivity)
                    ltac:(vm_compute; reflexivity)
                    ltac:(vm_compute; reflexivity))).
  vm_compute. reflexivity.
Defined.

Lemma other_type_does_nothing_at_delete :
  type delete_params <> "put" /\ type delete_params <> "get"
  /\ main site_env delete_params in_sync
     = (Raise UnboundLocalError_status, in_sync,
        [Log INFO "Starting the file transfer: pkg.tgz"]).
Proof.
  split; [discriminate|]. split; [discriminate|].
  apply (other_type_does_nothing site_env delete_params in_sync);
    discriminate.
Defined.

Lemma put_rerun_is_skip_at_in_sync :
  undisturbed site_env
  /\ type put_params = "put"
  /\ outcome (main site_env put_params in_sync)
     = ExitJson (mkResults skip_message false false)
  /\ outcome (main site_env put_params
                (world_of (main site_env put_params in_sync)))
     = ExitJson (mkResults skip_message false false).
Proof.
  split; [exact site_undisturbed|]. split; [reflexivity|].
  split; [vm_compute; reflexivity|].
  refine (proj1 (put_rerun_is_skip site_env site_undisturbed put_params
                   in_sync (mkResults skip_message false false) eq_refl _)).
  vm_compute. reflexivity.
Defined.

Lemma put_then_get_keeps_digest_at_backup :
  undisturbed site_env
  /\ type put_params = "put" /\ type backup_params = "get"
  /\ remote_file_of backup_params = remote_file_of put_params
  /\ outcome (main site_env put_params (controller_only Faithful))
     = ExitJson (mkResults "File pushed OK" true false)
  /\ outcome (main site_env backup_params
                (world_of (main site_env put_params (controller_only Faithful))))
     = ExitJson (mkResults "File retrieved OK" true false)
  /\ exists d,
       is_hexdigest d = true
       /\ outcome (local_md5 site_env put_params (local_file_of put_params)
                     (controller_only Faithful)) = Return d
       /\ outcome (local_md5 site_env backup_params
                     (local_file_of backup_params)
                     (world_of (main site_env backup_params
                                  (world_of (main site_env put_params
                                               (controller_only Faithful))))))
          = Return d.
Proof.
  split; [exact site_undisturbed|]. split; [reflexivity|].
  split; [reflexivity|]. split; [reflexivity|].
  split; [vm_compute; reflexivity|]. split; [vm_compute; reflexivity|].
  refine (put_then_get_keeps_digest site_env site_undisturbed put_params
            backup_params (controller_only Faithful)
            (mkResults "File pushed OK" true false)
            (mkResults "File retrieved OK" true false)
            eq_refl eq_refl eq_refl _ _).
  - vm_compute. reflexivity.
  - vm_compute. reflexivity.
Defined.

Lemma get_rerun_is_skip_at_first_get :
  undisturbed site_env
  /\ download_keeps_device site_env
  /\ device_replies_digests site_env
  /\ type get_params = "get"
  /\ outcome (main site_env get_params (device_only Faithful))
     = ExitJson (mkResults "File retrieved OK" true false)
  /\ outcome (main site_env get_params
                (world_of (main site_env get_params (device_only Faithful))))
     = ExitJson (mkResults skip_message false false).
Proof.
  split; [exact site_undisturbed|].
  split; [exact site_downloads_keep_device|].
  split; [exact site_replies_digests|]. split; [reflexivity|].
  split; [vm_compute; reflexivity|].
  refine (proj1 (get_rerun_is_skip site_env site_undisturbed
                   site_downloads_keep_device site_replies_digests get_params
                   (device_only Faithful)
                   (mkResults "File retrieved OK" true false) eq_refl _)).
  vm_compute. reflexivity.
Defined.
